(** * The cooking assistant: data model, validators and workflow steps

    A shallow embedding of [cooking/models.py], [cooking/tools.py] and
    [cooking/agents.py].  Python [str] values are Rocq strings whose
    characters are the code points below 256; Python [int] is [Z];
    [Optional[T]] is [option T]; a Python [set] of strings is a
    [gset string]. *)

From Stdlib Require Import String Ascii ZArith Bool Lia.
From stdpp Require Import base option list gmap sets strings.

Local Open Scope string_scope.

(** ** Python [str] methods used by the program *)

Module PyStr.

(** [str.isspace] on one character: the white-space code points below 256
    are TAB..CR, FS..US, SPACE, NEL and NBSP. *)
Definition isspace (c : ascii) : bool :=
  let n := N_of_ascii c in
  ((9 <=? n) && (n <=? 13) || (28 <=? n) && (n <=? 32)
   || (n =? 133) || (n =? 160))%N.

(** [str.lower] on one character: A..Z and the accented capitals
    U+00C0..U+00DE (the multiplication sign U+00D7 apart) move up by 32. *)
Definition lower_char (c : ascii) : ascii :=
  let n := N_of_ascii c in
  if ((65 <=? n) && (n <=? 90)
      || (192 <=? n) && (n <=? 222) && negb (n =? 215))%N
  then ascii_of_N (n + 32) else c.

Fixpoint lower (s : string) : string :=
  match s with
  | EmptyString => EmptyString
  | String c s' => String (lower_char c) (lower s')
  end.

Fixpoint lstrip (s : string) : string :=
  match s with
  | EmptyString => EmptyString
  | String c s' => if isspace c then lstrip s' else s
  end.

Fixpoint rstrip (s : string) : string :=
  match s with
  | EmptyString => EmptyString
  | String c s' =>
      match rstrip s' with
      | EmptyString => if isspace c then EmptyString else String c EmptyString
      | r => String c r
      end
  end.

Definition strip (s : string) : string := rstrip (lstrip s).

(** [s.startswith(p)] *)
Fixpoint startswith (s p : string) : bool :=
  match p, s with
  | EmptyString, _ => true
  | String _ _, EmptyString => false
  | String b p', String a s' => Ascii.eqb a b && startswith s' p'
  end.

(** [s.endswith(suf)] *)
Fixpoint endswith (s suf : string) : bool :=
  String.eqb s suf
  || match s with
     | EmptyString => false
     | String _ s' => endswith s' suf
     end.

(** [sub in s] *)
Fixpoint contains (s sub : string) : bool :=
  startswith s sub
  || match s with
     | EmptyString => false
     | String _ s' => contains s' sub
     end.

(** [s[n:]] for [0 <= n] *)
Fixpoint drop (n : nat) (s : string) : string :=
  match n, s with
  | O, _ => s
  | S _, EmptyString => EmptyString
  | S n', String _ s' => drop n' s'
  end.

(** [s[:-n]] for [0 < n] *)
Definition drop_end (n : nat) (s : string) : string :=
  String.substring 0 (String.length s - n) s.

(** [s.replace(old, new)] for a non-empty [old]: the occurrences are
    replaced from the left, without overlap.  [skip] counts the
    characters of the current match that are still to be passed over. *)
Fixpoint replace_from (skip : nat) (old new s : string) : string :=
  match s with
  | EmptyString => EmptyString
  | String c s' =>
      match skip with
      | S k => replace_from k old new s'
      | O =>
          if startswith s old
          then new ++ replace_from (String.length old - 1) old new s'
          else String c (replace_from 0 old new s')
      end
  end.

Definition replace (s old new : string) : string := replace_from 0 old new s.

(** [sep.join(l)] *)
Fixpoint join (sep : string) (l : list string) : string :=
  match l with
  | [] => EmptyString
  | [x] => x
  | x :: l' => x ++ sep ++ join sep l'
  end.

(** Python truth value of a [str]. *)
Definition truthy (s : string) : bool := negb (String.eqb s EmptyString).

End PyStr.

(** ** Exceptions and fallible results *)

(** The exception classes the program raises or catches.  [JSONDecodeError]
    and pydantic's [ValidationError] are subclasses of [ValueError];
    [OtherError] stands for every other class (network failures and the
    like).  [ValidationError] carries the names of the rejected fields. *)
Inductive exn : Type :=
| ValueError (msg : string)
| JSONDecodeError
| ValidationError (fields : list string)
| KeyError (key : string)
| OtherError (msg : string).

(** [isinstance(e, ValueError)] *)
Definition is_ValueError (e : exn) : bool :=
  match e with
  | ValueError _ | JSONDecodeError | ValidationError _ => true
  | KeyError _ | OtherError _ => false
  end.

Inductive result (A : Type) : Type :=
| Ok (a : A)
| Raise (e : exn).
Arguments Ok {A} a.
Arguments Raise {A} e.

Definition rbind {A B} (r : result A) (k : A -> result B) : result B :=
  match r with
  | Ok a => k a
  | Raise e => Raise e
  end.

Fixpoint rmap_list {A B} (f : A -> result B) (l : list A) : result (list B) :=
  match l with
  | [] => Ok []
  | x :: l' => rbind (f x) (fun y => rbind (rmap_list f l') (fun ys => Ok (y :: ys)))
  end.

(** ** models.py *)

Record Recipe : Type := mkRecipe {
  name : string;
  ingredients : list string;
  steps : list string;
  required_tools : list string;
  cooking_time : string;
  difficulty : string;
  servings : Z
}.

Module RecipeValidators.

Definition allowed : gset string := {[ "easy"; "medium"; "hard" ]}.

(** The message of the source lists the allowed values in the iteration
    order of a Python set, which the language leaves open; the model keeps
    the fixed part of the message. *)
Definition validate_difficulty (v : string) : result string :=
  let v := PyStr.lower v in
  if bool_decide (v ∈ allowed) then Ok v
  else Raise (ValueError "Difficulty must be one of: ").

Definition validate_servings (v : Z) : result Z :=
  if (v <? 1)%Z then Raise (ValueError "Servings must be a positive number")
  else Ok v.

Definition validate_cooking_time (v : string) : result string :=
  if negb (PyStr.endswith (PyStr.strip v) "minutes")
  then Ok (PyStr.strip v ++ " minutes")
  else Ok v.

End RecipeValidators.

(** The names of the fields whose validator raised, in field order. *)
Definition rejected {A} (field : string) (r : result A) : list string :=
  match r with
  | Ok _ => []
  | Raise _ => [field]
  end.

(** Construction of a [Recipe] from well-typed field values: every
    validator runs, the failures are gathered into one [ValidationError]. *)
Definition Recipe_init (raw : Recipe) : result Recipe :=
  let ct := RecipeValidators.validate_cooking_time (cooking_time raw) in
  let df := RecipeValidators.validate_difficulty (difficulty raw) in
  let sv := RecipeValidators.validate_servings (servings raw) in
  match ct, df, sv with
  | Ok c, Ok d, Ok n =>
      Ok (mkRecipe (name raw) (ingredients raw) (steps raw)
                   (required_tools raw) c d n)
  | _, _, _ =>
      Raise (ValidationError
               (rejected "cooking_time" ct ++ rejected "difficulty" df
                ++ rejected "servings" sv)%list)
  end.

Record ToolSet : Type := mkToolSet {
  available_tools : list string
}.

(** [ToolSet()] *)
Definition ToolSet_default : ToolSet :=
  mkToolSet ["Spatula"; "Frying Pan"; "Little Pot"; "Stovetop"; "Whisk";
             "Knife"; "Ladle"; "Spoon"].

Definition can_cook_recipe (self : ToolSet) (recipe : option Recipe) : bool :=
  match recipe with
  | None => true
  | Some r =>
      let required : gset string :=
        list_to_set (PyStr.lower <$> required_tools r) in
      let available : gset string :=
        list_to_set (PyStr.lower <$> available_tools self) in
      bool_decide (required ⊆ available)
  end.

Record AgentState : Type := mkAgentState {
  query : string;
  is_cooking_related : bool;
  needs_research : bool;
  research_results : list string;
  recipe : option Recipe;
  reasoning_chain : list string;
  final_response : option string
}.

(** [AgentState(query=q)] *)
Definition AgentState_init (q : string) : AgentState :=
  mkAgentState q false false [] None [] None.

(** ** tools.py *)

(** A prompt sent to the language model: the template and the values that
    fill it.  The wording of the templates is not modelled. *)
Inductive prompt : Type :=
| QUERY_CLASSIFIER_PROMPT (q : string)
| RESEARCH_NEEDED_PROMPT (q : string)
| RECIPE_PARSER_PROMPT (research : string)
| FINAL_RESPONSE_PROMPT (q : string) (r : Recipe) (can_cook : bool)
                        (available : list string)
| HOW_TO_COOK_PROMPT (dish : string) (available : list string)
| GENERAL_COOKING_PROMPT (q : string).

Definition newline : string := String (ascii_of_nat 10) EmptyString.

Section Tools.

(** [llm.invoke([HumanMessage(content=p)]).content], or the exception the
    call raises. *)
Variable llm : prompt -> result string.

(** [list(ddgs.text(q, max_results=n))]: the result dictionaries of the
    search service, or the exception the call raises. *)
Variable ddgs_text : string -> nat -> result (list (gmap string string)).

(** [json.loads] followed by the typing of the fields of a [Recipe]. *)
Variable json_loads : string -> result Recipe.

(** [result['body']] *)
Definition body_of (r : gmap string string) : result string :=
  match r !! "body" with
  | Some b => Ok b
  | None => Raise (KeyError "body")
  end.

Definition search_recipes (q : string) : result (list string) :=
  rbind (ddgs_text ("recipe " ++ q) 3) (fun results =>
  rmap_list body_of results).

Definition tools_classify_query (q : string) : result bool :=
  rbind (llm (QUERY_CLASSIFIER_PROMPT q)) (fun content =>
  Ok (String.eqb (PyStr.strip (PyStr.lower content)) "true")).

Definition tools_needs_research (q : string) : result bool :=
  rbind (llm (RESEARCH_NEEDED_PROMPT q)) (fun content =>
  Ok (String.eqb (PyStr.strip (PyStr.lower content)) "true")).

Definition clean_json (content : string) : string :=
  let content := PyStr.strip content in
  let content :=
    if PyStr.startswith content "```json" then PyStr.drop 7 content
    else content in
  let content :=
    if PyStr.endswith content "```" then PyStr.drop_end 3 content
    else content in
  PyStr.strip content.

Definition parse_recipe (research : list string) : result (option Recipe) :=
  let body :=
    rbind (llm (RECIPE_PARSER_PROMPT (PyStr.join newline research)))
      (fun content =>
    rbind (json_loads (clean_json content)) (fun recipe_dict =>
    Recipe_init recipe_dict)) in
  match body with
  | Ok r => Ok (Some r)
  | Raise e => if is_ValueError e then Ok None else Raise e
  end.

Definition generate_cooking_response
    (q : string) (recipe : option Recipe) (toolset : ToolSet) : result string :=
  let can_cook :=
    match recipe with
    | Some _ => can_cook_recipe toolset recipe
    | None => false
    end in
  let response :=
    match recipe with
    | Some r =>
        llm (FINAL_RESPONSE_PROMPT q r can_cook (available_tools toolset))
    | None =>
        if PyStr.contains (PyStr.lower q) "how to cook"
        then llm (HOW_TO_COOK_PROMPT
                    (PyStr.replace (PyStr.lower q) "how to cook " "")
                    (available_tools toolset))
        else llm (GENERAL_COOKING_PROMPT q)
    end in
  rbind response (fun content =>
  if negb (PyStr.truthy content)
  then Raise (ValueError "Failed to generate response content")
  else Ok (PyStr.strip content)).

End Tools.

(** The five callables of the tool list, [tools[0].func] to
    [tools[4].func]. *)
Record Tools : Type := mkTools {
  tool_classify_query : string -> result bool;
  tool_needs_research : string -> result bool;
  tool_search_recipes : string -> result (list string);
  tool_parse_recipe : list string -> result (option Recipe);
  tool_generate_response : string -> option Recipe -> ToolSet -> result string
}.

Definition create_tools
    (llm : prompt -> result string)
    (ddgs_text : string -> nat -> result (list (gmap string string)))
    (json_loads : string -> result Recipe) : Tools :=
  mkTools (tools_classify_query llm)
          (tools_needs_research llm)
          (search_recipes ddgs_text)
          (parse_recipe llm json_loads)
          (generate_cooking_response llm).

(** ** agents.py *)

(** One entry of the record of calls made to the tools. *)
Inductive call : Type :=
| CallClassify (q : string)
| CallNeedsResearch (q : string)
| CallSearch (q : string)
| CallParse (research : list string)
| CallRespond (q : string) (r : option Recipe) (t : ToolSet).

(** What a step can change: the [AgentState] object it mutates in place and
    the calls made so far.  An exception leaves both as they were when it
    was raised. *)
Record World : Type := mkWorld {
  state : AgentState;
  calls : list call
}.

Definition M (A : Type) : Type := World -> result A * World.

Definition ret {A} (a : A) : M A := fun w => (Ok a, w).

Definition bind {A B} (m : M A) (k : A -> M B) : M B :=
  fun w =>
    match m w with
    | (Ok a, w') => k a w'
    | (Raise e, w') => (Raise e, w')
    end.

Definition raise {A} (e : exn) : M A := fun w => (Raise e, w).

Notation "'let!' x := m 'in' k" := (bind m (fun x => k))
  (at level 10, x name, m at level 100, k at level 200).
Notation "m ;;; k" := (bind m (fun _ => k))
  (at level 100, k at level 200, right associativity).

Definition get {A} (f : AgentState -> A) : M A := fun w => (Ok (f (state w)), w).

Definition modify (f : AgentState -> AgentState) : M unit :=
  fun w => (Ok tt, mkWorld (f (state w)) (calls w)).

(** Calling a tool: the call is recorded, its result or exception is the
    tool's. *)
Definition invoke {A} (c : call) (r : result A) : M A :=
  fun w => (r, mkWorld (state w) (calls w ++ [c])).

Definition set_is_cooking_related (b : bool) (s : AgentState) : AgentState :=
  mkAgentState (query s) b (needs_research s) (research_results s)
               (recipe s) (reasoning_chain s) (final_response s).

Definition set_needs_research (b : bool) (s : AgentState) : AgentState :=
  mkAgentState (query s) (is_cooking_related s) b (research_results s)
               (recipe s) (reasoning_chain s) (final_response s).

Definition set_research_results (l : list string) (s : AgentState) : AgentState :=
  mkAgentState (query s) (is_cooking_related s) (needs_research s) l
               (recipe s) (reasoning_chain s) (final_response s).

Definition set_recipe (r : option Recipe) (s : AgentState) : AgentState :=
  mkAgentState (query s) (is_cooking_related s) (needs_research s)
               (research_results s) r (reasoning_chain s) (final_response s).

Definition set_final_response (t : string) (s : AgentState) : AgentState :=
  mkAgentState (query s) (is_cooking_related s) (needs_research s)
               (research_results s) (recipe s) (reasoning_chain s) (Some t).

(** [state.reasoning_chain.append(entry)] *)
Definition reasoning_chain_append (entry : string) (s : AgentState) : AgentState :=
  mkAgentState (query s) (is_cooking_related s) (needs_research s)
               (research_results s) (recipe s) (reasoning_chain s ++ [entry])
               (final_response s).

Definition refusal : string :=
  "I apologize, but I can only help with cooking-related questions. Please ask me about recipes, cooking techniques, or kitchen tools.".

Section Graph.

Variable tools : Tools.

(** [toolset = ToolSet()] *)
Definition toolset : ToolSet := ToolSet_default.

(** Each step logs and re-raises what its body raises, so the handler
    changes nothing. *)
Definition classify_query : M unit :=
  let! q := get query in
  let! is_cooking := invoke (CallClassify q) (tool_classify_query tools q) in
  modify (set_is_cooking_related is_cooking) ;;;
  modify (reasoning_chain_append
            ("Query classification: "
             ++ (if is_cooking then "cooking-related"
                 else "not cooking-related"))).

Definition check_research_needed : M unit :=
  let! cooking := get is_cooking_related in
  if negb cooking then ret tt
  else
    let! q := get query in
    let! needs := invoke (CallNeedsResearch q) (tool_needs_research tools q) in
    modify (set_needs_research needs) ;;;
    modify (reasoning_chain_append
              ("Research " ++ (if needs then "needed" else "not needed"))).

Definition do_research : M unit :=
  let! needs := get needs_research in
  if negb needs then ret tt
  else
    let! q := get query in
    let! results := invoke (CallSearch q) (tool_search_recipes tools q) in
    match results with
    | [] => modify (set_research_results [])
    | _ :: _ =>
        modify (set_research_results results) ;;;
        modify (reasoning_chain_append "Performed recipe research")
    end.

Definition parse_results : M unit :=
  let! research := get research_results in
  match research with
  | [] => ret tt
  | _ :: _ =>
      let! r := invoke (CallParse research) (tool_parse_recipe tools research) in
      modify (set_recipe r) ;;;
      modify (reasoning_chain_append
                ("Recipe " ++ (match r with
                               | Some _ => "parsed successfully"
                               | None => "parsing failed"
                               end)))
  end.

Definition generate_response : M unit :=
  let! cooking := get is_cooking_related in
  if negb cooking then modify (set_final_response refusal)
  else
    let! q := get query in
    let! r := get recipe in
    let! response := invoke (CallRespond q r toolset)
                            (tool_generate_response tools q r toolset) in
    if negb (PyStr.truthy response)
    then raise (ValueError "Response generation failed")
    else
      modify (set_final_response response) ;;;
      modify (reasoning_chain_append "Generated final response").

(** The compiled workflow: the chain of edges classify, check_research,
    research, parse, respond, from the entry point to the finish point. *)
Definition workflow : M unit :=
  classify_query ;;; check_research_needed ;;; do_research ;;;
  parse_results ;;; generate_response.

(** [cooking_graph.invoke(AgentState(query=q))] *)
Definition run (q : string) : result unit * World :=
  workflow (mkWorld (AgentState_init q) []).

End Graph.

(** ** Which steps do work, and which of them leave no trace *)

Inductive step_name : Type :=
| Classify | CheckResearch | Research | Parse | Respond.

Definition step (tools : Tools) (n : step_name) : M unit :=
  match n with
  | Classify => classify_query tools
  | CheckResearch => check_research_needed tools
  | Research => do_research tools
  | Parse => parse_results tools
  | Respond => generate_response tools
  end.

(** The nodes in the order of the edges of the graph. *)
Definition nodes : list step_name :=
  [Classify; CheckResearch; Research; Parse; Respond].

(** The guard a step tests first: when it holds the step returns the state
    as it got it.  [classify_query] and [generate_response] have none. *)
Definition skips (n : step_name) (s : AgentState) : bool :=
  match n with
  | Classify => false
  | CheckResearch => negb (is_cooking_related s)
  | Research => negb (needs_research s)
  | Parse => match research_results s with [] => true | _ :: _ => false end
  | Respond => false
  end.

(** The two branches that pass the guard, change the state and still append
    nothing: a search without results, and the refusal. *)
Definition silent (tools : Tools) (n : step_name) (s : AgentState) : bool :=
  match n with
  | Research =>
      needs_research s
      && match tool_search_recipes tools (query s) with
         | Ok [] => true
         | _ => false
         end
  | Respond => negb (is_cooking_related s)
  | _ => false
  end.

(** Only the search and the response step have a silent branch. *)
Definition may_be_silent (n : step_name) : nat :=
  match n with
  | Research | Respond => 1
  | _ => 0
  end.

Definition b2n (b : bool) : nat := if b then 1 else 0.

(** Running the nodes one after the other, as long as none raises. *)
Fixpoint exec (tools : Tools) (ns : list step_name) : M unit :=
  match ns with
  | [] => ret tt
  | n :: ns' => step tools n ;;; exec tools ns'
  end.

(** The number of executed steps of [ns] that did not skip, and the number
    of those that took a silent branch, in the run from [w]. *)
Fixpoint worked (tools : Tools) (ns : list step_name) (w : World) : nat :=
  match ns with
  | [] => 0
  | n :: ns' =>
      b2n (negb (skips n (state w)))
      + match step tools n w with
        | (Ok _, w') => worked tools ns' w'
        | (Raise _, _) => 0
        end
  end.

Fixpoint quiet (tools : Tools) (ns : list step_name) (w : World) : nat :=
  match ns with
  | [] => 0
  | n :: ns' =>
      b2n (silent tools n (state w))
      + match step tools n w with
        | (Ok _, w') => quiet tools ns' w'
        | (Raise _, _) => 0
        end
  end.

(** ** What a run may change *)

(** [m] relates every world to the world it leaves, whether it returns or
    raises. *)
Definition preserves {A} (R : relation World) (m : M A) : Prop :=
  forall w, R w (snd (m w)).

(** The query is kept; the reasoning chain and the record of calls only
    grow at their end. *)
Definition extends : relation World := fun w w' =>
  query (state w') = query (state w)
  /\ reasoning_chain (state w) `prefix_of` reasoning_chain (state w')
  /\ calls w `prefix_of` calls w'.

(** Two tool lists give the same answer to a call. *)
Definition agree_on (t1 t2 : Tools) (c : call) : Prop :=
  match c with
  | CallClassify q => tool_classify_query t1 q = tool_classify_query t2 q
  | CallNeedsResearch q => tool_needs_research t1 q = tool_needs_research t2 q
  | CallSearch q => tool_search_recipes t1 q = tool_search_recipes t2 q
  | CallParse l => tool_parse_recipe t1 l = tool_parse_recipe t2 l
  | CallRespond q r t =>
      tool_generate_response t1 q r t = tool_generate_response t2 q r t
  end.

(** ** Sample collaborators *)

Module Samples.

Definition risotto : Recipe :=
  mkRecipe "Mushroom risotto" ["rice"; "stock"; "mushrooms"]
           ["Toast the rice"; "Add stock"; "Stir"]
           ["little pot"; "ladle"; "stovetop"] "40 minutes" "medium" 2.

(** A query that is not about cooking. *)
Definition off_topic : Tools :=
  mkTools (fun _ => Ok false) (fun _ => Ok true) (fun _ => Ok ["snippet"])
          (fun _ => Ok (Some risotto)) (fun _ _ _ => Ok "text").

(** A cooking query that needs research, a search that finds nothing. *)
Definition nothing_found : Tools :=
  mkTools (fun _ => Ok true) (fun _ => Ok true) (fun _ => Ok [])
          (fun _ => Ok (Some risotto)) (fun _ _ _ => Ok "Here is how.").

(** Tools that answer as [nothing_found] does on the query "rice" and
    differently elsewhere. *)
Definition nothing_found' : Tools :=
  mkTools (fun q => if String.eqb q "rice" then Ok true else Ok false)
          (fun _ => Ok true) (fun _ => Ok [])
          (fun _ => Ok None) (fun _ _ _ => Ok "Here is how.").

(** A search with three results and a recipe parsed from them. *)
Definition found : Tools :=
  mkTools (fun _ => Ok true) (fun _ => Ok true) (fun _ => Ok ["a"; "b"; "c"])
          (fun _ => Ok (Some risotto)) (fun _ _ _ => Ok "## Risotto").

(** A response tool that returns the empty string. *)
Definition speechless : Tools :=
  mkTools (fun _ => Ok true) (fun _ => Ok false) (fun _ => Ok [])
          (fun _ => Ok None) (fun _ _ _ => Ok "").

(** A language model that answers every prompt with the empty string. *)
Definition mute_llm (p : prompt) : result string := Ok "".

(** A search service that is down. *)
Definition ddgs_down (q : string) (n : nat) : result (list (gmap string string)) :=
  Raise (OtherError "connection timed out").

(** A search service with two results. *)
Definition ddgs_two (q : string) (n : nat) : result (list (gmap string string)) :=
  Ok [ {[ "title" := "Risotto"; "href" := "http://a"; "body" := "Stir the rice." ]};
       {[ "title" := "Rice"; "href" := "http://b"; "body" := "Boil it." ]} ].

Definition no_json (s : string) : result Recipe := Raise JSONDecodeError.

Definition cooking_state : AgentState :=
  mkAgentState "rice" true true [] None ["Query classification: cooking-related"] None.

End Samples.

(** ** models.py: the request and the response *)

(** [CookingQuery.validate_query] *)
Definition validate_query (v : string) : result string :=
  if negb (PyStr.truthy (PyStr.strip v))
  then Raise (ValueError "Query cannot be empty")
  else Ok (PyStr.strip v).

(** [CookingResponse.validate_response], on a value that is a [str]. *)
Definition validate_response (v : string) : string :=
  let v := PyStr.strip v in
  if negb (PyStr.truthy v) then "No response generated" else v.

(** [CookingResponse.validate_reasoning_chain], on a list of [str]: the
    empty items are dropped, the others stripped. *)
Definition validate_reasoning_chain (v : list string) : list string :=
  match v with
  | [] => ["Direct response generated"]
  | _ :: _ => List.map PyStr.strip (List.filter PyStr.truthy v)
  end.

(** ** Vocabulary for the statements *)

(** Every character of [s] is white space. *)
Fixpoint all_space (s : string) : bool :=
  match s with
  | EmptyString => true
  | String c s' => PyStr.isspace c && all_space s'
  end.

(** The tool called as [c] says raises [e]. *)
Definition raises (tools : Tools) (c : call) (e : exn) : Prop :=
  match c with
  | CallClassify q => tool_classify_query tools q = Raise e
  | CallNeedsResearch q => tool_needs_research tools q = Raise e
  | CallSearch q => tool_search_recipes tools q = Raise e
  | CallParse l => tool_parse_recipe tools l = Raise e
  | CallRespond q r t => tool_generate_response tools q r t = Raise e
  end.

(** What [Recipe_init] guarantees of a recipe it returns. *)
Definition valid_recipe (r : Recipe) : Prop :=
  difficulty r ∈ RecipeValidators.allowed
  /\ (1 <= servings r)%Z
  /\ PyStr.endswith (PyStr.strip (cooking_time r)) "minutes" = true.

(** * Properties *)

(** ** Strings *)

Section StringFacts.

Lemma append_cons (c : ascii) (a b : string) :
  String c a ++ b = String c (a ++ b).
Proof. reflexivity. Qed.

Lemma append_nil (b : string) : EmptyString ++ b = b.
Proof. reflexivity. Qed.

Lemma append_assoc (a b c : string) : (a ++ b) ++ c = a ++ (b ++ c).
Proof.
  induction a as [|x a IH]; [reflexivity|].
  rewrite !append_cons. now f_equal.
Qed.

Lemma endswith_spec (s suf : string) :
  PyStr.endswith s suf = true <-> exists p, s = p ++ suf.
Proof.
  induction s as [|c s IH].
  - cbn [PyStr.endswith]. rewrite orb_false_r, String.eqb_eq. split.
    + intros <-. now exists EmptyString.
    + intros [[|x p] Hp]; [now rewrite append_nil in Hp|].
      rewrite append_cons in Hp. discriminate.
  - cbn [PyStr.endswith]. rewrite orb_true_iff, String.eqb_eq, IH. split.
    + intros [<- | [p ->]]; [now exists EmptyString | now exists (String c p)].
    + intros [[|x p] Hp]; [rewrite append_nil in Hp; now left | right].
      rewrite append_cons in Hp. injection Hp as _ ->. now exists p.
Qed.

(** Nothing is cut on the right of a string whose last part does not strip
    to the empty string. *)
Lemma rstrip_app (p s : string) :
  PyStr.rstrip s <> EmptyString -> PyStr.rstrip (p ++ s) = p ++ PyStr.rstrip s.
Proof.
  intros Hs. induction p as [|c p IH]; [reflexivity|].
  rewrite !append_cons. cbn [PyStr.rstrip]. rewrite IH.
  destruct p as [|x p].
  - rewrite append_nil. destruct (PyStr.rstrip s); [contradiction | reflexivity].
  - now rewrite append_cons.
Qed.

Lemma lstrip_keeps_minutes (p : string) :
  PyStr.endswith (PyStr.lstrip (p ++ "minutes")) "minutes" = true.
Proof.
  induction p as [|c p IH]; [reflexivity|].
  rewrite append_cons. cbn [PyStr.lstrip].
  destruct (PyStr.isspace c); [exact IH|].
  apply endswith_spec. now exists (String c p).
Qed.

Lemma strip_keeps_minutes (s : string) :
  PyStr.endswith s "minutes" = true ->
  PyStr.endswith (PyStr.strip s) "minutes" = true.
Proof.
  intros [p ->]%endswith_spec. unfold PyStr.strip.
  destruct (proj1 (endswith_spec _ _) (lstrip_keeps_minutes p)) as [p' ->].
  rewrite rstrip_app by (cbv; discriminate).
  apply endswith_spec. now exists p'.
Qed.

Lemma appended_minutes (w : string) :
  PyStr.endswith (PyStr.strip (w ++ " minutes")) "minutes" = true.
Proof.
  apply strip_keeps_minutes, endswith_spec. exists (w ++ " ").
  now rewrite append_assoc.
Qed.

End StringFacts.

(** ** Recipe validation *)

Import RecipeValidators.

Lemma allowed_spec (v : string) :
  v ∈ allowed <-> v = "easy" \/ v = "medium" \/ v = "hard".
Proof.
  unfold allowed. rewrite !elem_of_union, !elem_of_singleton. tauto.
Qed.

Lemma validate_difficulty_ok (v w : string) :
  validate_difficulty v = Ok w <-> w = PyStr.lower v /\ PyStr.lower v ∈ allowed.
Proof.
  unfold validate_difficulty. case_bool_decide as H; split.
  - intros [= <-]. auto.
  - intros [-> _]. reflexivity.
  - discriminate.
  - intros [_ ?]. contradiction.
Qed.

Lemma validate_servings_ok (v n : Z) :
  validate_servings v = Ok n <-> n = v /\ (1 <= v)%Z.
Proof.
  unfold validate_servings. destruct (Z.ltb_spec v 1); split.
  - discriminate.
  - intros [_ ?]. lia.
  - intros [= <-]. auto.
  - intros [-> _]. reflexivity.
Qed.

Lemma validate_cooking_time_total (v : string) :
  exists w, validate_cooking_time v = Ok w.
Proof. unfold validate_cooking_time. destruct (negb _); eauto. Qed.

Lemma validate_cooking_time_keeps (v : string) :
  PyStr.endswith v "minutes" = true -> validate_cooking_time v = Ok v.
Proof.
  intros H%strip_keeps_minutes. unfold validate_cooking_time. now rewrite H.
Qed.

Lemma validate_cooking_time_appends (v : string) :
  PyStr.endswith (PyStr.strip v) "minutes" = false ->
  validate_cooking_time v = Ok (PyStr.strip v ++ " minutes").
Proof. intros H. unfold validate_cooking_time. now rewrite H. Qed.

Lemma Recipe_init_ok (raw r : Recipe) :
  Recipe_init raw = Ok r <->
  PyStr.lower (difficulty raw) ∈ allowed /\ (1 <= servings raw)%Z /\
  validate_cooking_time (cooking_time raw) = Ok (cooking_time r) /\
  r = mkRecipe (name raw) (ingredients raw) (steps raw) (required_tools raw)
               (cooking_time r) (PyStr.lower (difficulty raw)) (servings raw).
Proof.
  unfold Recipe_init.
  destruct (validate_cooking_time_total (cooking_time raw)) as [c ->].
  destruct (validate_difficulty (difficulty raw)) as [d|e] eqn:Ed;
    [apply validate_difficulty_ok in Ed as [-> Hd]|];
    (destruct (validate_servings (servings raw)) as [n|e'] eqn:Es;
     [apply validate_servings_ok in Es as [-> Hs]|]).
  - split.
    + intros [= <-]. simpl. auto.
    + intros (_ & _ & [= ->] & ->). reflexivity.
  - split; [discriminate|]. intros (_ & Hs & _).
    assert (validate_servings (servings raw) = Ok (servings raw)) as E
      by now apply validate_servings_ok.
    congruence.
  - split; [discriminate|]. intros (Hd & _).
    assert (validate_difficulty (difficulty raw) = Ok (PyStr.lower (difficulty raw))) as E
      by now apply validate_difficulty_ok.
    congruence.
  - split; [discriminate|]. intros (Hd & _).
    assert (validate_difficulty (difficulty raw) = Ok (PyStr.lower (difficulty raw))) as E
      by now apply validate_difficulty_ok.
    congruence.
Qed.

Example cooking_time_trailing_space :
  validate_cooking_time "30 minutes " = Ok "30 minutes ".
Proof. reflexivity. Qed.

(** C3, as the claim states it, fails on the code: a cooking_time that does
    not end in "minutes" does not simply get " minutes" appended.  The value
    " 30" does not end in "minutes", and the validator returns "30 minutes",
    the stripped value with the suffix, not " 30 minutes". *)
Lemma C3_append_counterexample :
  ~ (forall v : string,
       PyStr.endswith v "minutes" = false ->
       validate_cooking_time v = Ok (v ++ " minutes")).
Proof.
  intros H. specialize (H " 30" eq_refl). vm_compute in H. discriminate.
Qed.

(** C3, amended: difficulty "EASY" becomes "easy", "extreme" is rejected,
    servings 0 is rejected, cooking_time "30" becomes "30 minutes" and
    "30 minutes" stays; in general a difficulty is accepted exactly when its
    lower-cased form is easy, medium or hard (and is then returned
    lower-cased), servings exactly when it is at least 1, a cooking_time is
    never rejected, one whose stripped form does not end in "minutes" becomes
    the stripped form followed by " minutes", and one that ends in "minutes"
    is returned unchanged; constructing a Recipe succeeds exactly when
    difficulty and servings pass, with the three fields normalised. *)
Theorem C3_recipe_validation :
  validate_difficulty "EASY" = Ok "easy" /\
  (exists msg, validate_difficulty "extreme" = Raise (ValueError msg)) /\
  (exists msg, validate_servings 0 = Raise (ValueError msg)) /\
  validate_cooking_time "30" = Ok "30 minutes" /\
  validate_cooking_time "30 minutes" = Ok "30 minutes" /\
  (forall v w : string,
     validate_difficulty v = Ok w <->
     w = PyStr.lower v /\
     (PyStr.lower v = "easy" \/ PyStr.lower v = "medium" \/ PyStr.lower v = "hard")) /\
  (forall v : string,
     (exists w, validate_difficulty v = Ok w) \/
     (exists msg, validate_difficulty v = Raise (ValueError msg))) /\
  (forall v n : Z, validate_servings v = Ok n <-> n = v /\ (1 <= v)%Z) /\
  (forall v : Z,
     (v < 1)%Z -> exists msg, validate_servings v = Raise (ValueError msg)) /\
  (forall v : string, exists w, validate_cooking_time v = Ok w) /\
  (forall v : string,
     PyStr.endswith (PyStr.strip v) "minutes" = false ->
     validate_cooking_time v = Ok (PyStr.strip v ++ " minutes")) /\
  (forall v : string,
     PyStr.endswith v "minutes" = true -> validate_cooking_time v = Ok v) /\
  (forall raw r : Recipe,
     Recipe_init raw = Ok r <->
     PyStr.lower (difficulty raw) ∈ allowed /\ (1 <= servings raw)%Z /\
     validate_cooking_time (cooking_time raw) = Ok (cooking_time r) /\
     r = mkRecipe (name raw) (ingredients raw) (steps raw) (required_tools raw)
                  (cooking_time r) (PyStr.lower (difficulty raw)) (servings raw)).
Proof.
  repeat apply conj.
  - reflexivity.
  - eexists. vm_compute. reflexivity.
  - eexists. reflexivity.
  - reflexivity.
  - reflexivity.
  - intros v w. rewrite validate_difficulty_ok, allowed_spec. reflexivity.
  - intros v. unfold validate_difficulty. case_bool_decide; eauto.
  - exact validate_servings_ok.
  - intros v Hv. unfold validate_servings.
    destruct (Z.ltb_spec v 1); [eauto | lia].
  - exact validate_cooking_time_total.
  - exact validate_cooking_time_appends.
  - exact validate_cooking_time_keeps.
  - exact Recipe_init_ok.
Qed.

Lemma C3_recipe_validation_witness :
  validate_cooking_time " 45 " = Ok "45 minutes"
  /\ validate_cooking_time "about 20 minutes" = Ok "about 20 minutes"
  /\ exists msg, validate_servings (-2) = Raise (ValueError msg).
Proof.
  pose proof C3_recipe_validation
    as (_ & _ & _ & _ & _ & _ & _ & _ & Hs & _ & Happ & Hkeep & _).
  repeat apply conj.
  - exact (Happ " 45 " eq_refl).
  - exact (Hkeep "about 20 minutes" eq_refl).
  - apply Hs. lia.
Defined.

(** C10: the cooking_time validator is idempotent.  Every value it returns
    ends, once stripped, with "minutes", so the validator returns that value
    unchanged when it is applied to it again. *)
Theorem C10_cooking_time_idempotent (v : string) :
  exists w : string,
    validate_cooking_time v = Ok w /\
    PyStr.endswith (PyStr.strip w) "minutes" = true /\
    validate_cooking_time w = Ok w /\
    rbind (validate_cooking_time v) validate_cooking_time
    = validate_cooking_time v.
Proof.
  assert (forall w, PyStr.endswith (PyStr.strip w) "minutes" = true ->
                    validate_cooking_time w = Ok w) as Hfix.
  { intros w Hw. unfold validate_cooking_time. now rewrite Hw. }
  assert (forall w, validate_cooking_time v = Ok w ->
                    PyStr.endswith (PyStr.strip w) "minutes" = true) as Hends.
  { unfold validate_cooking_time.
    destruct (PyStr.endswith (PyStr.strip v) "minutes") eqn:E;
      cbn [negb]; intros w [= <-]; [exact E | apply appended_minutes]. }
  destruct (validate_cooking_time_total v) as [w Hw].
  exists w. rewrite Hw. cbn [rbind].
  pose proof (Hfix w (Hends w Hw)). auto.
Qed.

(** ** The tool check *)

Lemma elem_of_lowered (t : string) (l : list string) :
  t ∈ (list_to_set (PyStr.lower <$> l) : gset string) <->
  exists a, a ∈ l /\ PyStr.lower a = t.
Proof.
  rewrite elem_of_list_to_set, list_elem_of_fmap. split.
  - intros (a & -> & Ha). eauto.
  - intros (a & Ha & <-). eauto.
Qed.

(** C4: can_cook_recipe is true for an absent recipe, and for a recipe
    exactly when the set of its lower-cased required tools is included in
    the set of the lower-cased available tools, that is when every required
    tool has an available tool of the same lower-cased name.  With the tools
    Knife and Frying Pan, a recipe requiring knife can be cooked, one
    requiring oven cannot. *)
Theorem C4_can_cook_recipe (self : ToolSet) :
  can_cook_recipe self None = true /\
  (forall r : Recipe,
     can_cook_recipe self (Some r) = true <->
     (list_to_set (PyStr.lower <$> required_tools r) : gset string)
       ⊆ list_to_set (PyStr.lower <$> available_tools self)) /\
  (forall r : Recipe,
     can_cook_recipe self (Some r) = true <->
     forall t, t ∈ required_tools r ->
       exists a, a ∈ available_tools self /\ PyStr.lower a = PyStr.lower t) /\
  (forall r : Recipe,
     required_tools r = ["knife"] ->
     can_cook_recipe (mkToolSet ["Knife"; "Frying Pan"]) (Some r) = true) /\
  (forall r : Recipe,
     required_tools r = ["oven"] ->
     can_cook_recipe (mkToolSet ["Knife"; "Frying Pan"]) (Some r) = false) /\
  can_cook_recipe (mkToolSet ["Knife"; "Frying Pan"]) None = true.
Proof.
  repeat apply conj.
  - reflexivity.
  - intros r. cbn [can_cook_recipe]. apply bool_decide_eq_true.
  - intros r. cbn [can_cook_recipe].
    rewrite bool_decide_eq_true, elem_of_subseteq. split.
    + intros H t Ht. apply elem_of_lowered, H, elem_of_lowered. eauto.
    + intros H t (a & Ha & <-)%elem_of_lowered.
      apply elem_of_lowered. auto.
  - intros r Hr. cbn [can_cook_recipe]. rewrite Hr. vm_compute. reflexivity.
  - intros r Hr. cbn [can_cook_recipe]. rewrite Hr. vm_compute. reflexivity.
  - reflexivity.
Qed.

Lemma C4_can_cook_recipe_witness :
  can_cook_recipe (mkToolSet ["Knife"; "Frying Pan"])
    (Some (mkRecipe "Salad" ["lettuce"] ["Chop"] ["knife"] "5 minutes" "easy" 1))
  = true
  /\ can_cook_recipe (mkToolSet ["Knife"; "Frying Pan"])
       (Some (mkRecipe "Bread" ["flour"] ["Bake"] ["oven"] "50 minutes" "hard" 4))
     = false.
Proof.
  pose proof (C4_can_cook_recipe ToolSet_default) as (_ & _ & _ & Hk & Ho & _).
  split.
  - apply Hk. reflexivity.
  - apply Ho. reflexivity.
Defined.


(** ** The frame of a run *)

Section Frame.

Context {A B : Type} (R : relation World) `{!PreOrder R}.

Lemma preserves_ret (a : A) : preserves R (ret a).
Proof. intros w. reflexivity. Qed.

Lemma preserves_raise (e : exn) : preserves R (@raise A e).
Proof. intros w. reflexivity. Qed.

Lemma preserves_get (f : AgentState -> A) : preserves R (get f).
Proof. intros w. reflexivity. Qed.

Lemma preserves_bind (m : M A) (k : A -> M B) :
  preserves R m -> (forall a, preserves R (k a)) -> preserves R (bind m k).
Proof.
  intros Hm Hk w. unfold bind. specialize (Hm w).
  destruct (m w) as [[a|e] w1]; cbn [snd] in *; [|exact Hm].
  etransitivity; [exact Hm | apply Hk].
Qed.

End Frame.

Global Instance extends_preorder : PreOrder extends.
Proof.
  split.
  - intros w. repeat split; reflexivity.
  - intros w1 w2 w3 (Hq1 & Hc1 & Hl1) (Hq2 & Hc2 & Hl2). repeat split.
    + congruence.
    + etransitivity; eassumption.
    + etransitivity; eassumption.
Qed.

Lemma extends_invoke {A} (c : call) (r : result A) : preserves extends (invoke c r).
Proof.
  intros w. repeat split; cbn; [reflexivity|]. now apply prefix_app_r.
Qed.

(** A setter that keeps the query and the chain. *)
Lemma extends_modify (f : AgentState -> AgentState) :
  (forall s, query (f s) = query s) ->
  (forall s, reasoning_chain s `prefix_of` reasoning_chain (f s)) ->
  preserves extends (modify f).
Proof. intros Hq Hc w. repeat split; cbn; auto. Qed.

Ltac frame_setter :=
  apply extends_modify; intros ?; cbn;
  [reflexivity | first [reflexivity | now apply prefix_app_r]].

Ltac frame :=
  repeat match goal with
    | |- preserves _ (bind _ _) => apply (preserves_bind extends); [| intros ?]
    | |- preserves _ (get _) => apply (preserves_get extends)
    | |- preserves _ (ret _) => apply (preserves_ret extends)
    | |- preserves _ (raise _) => apply (preserves_raise extends)
    | |- preserves _ (invoke _ _) => apply extends_invoke
    | |- preserves _ (modify _) => frame_setter
    | |- preserves _ (if ?b then _ else _) => destruct b
    | |- preserves _ (match ?x with _ => _ end) => destruct x
    end.

Lemma step_extends (tools : Tools) (n : step_name) :
  preserves extends (step tools n).
Proof.
  destruct n; cbn [step];
    unfold classify_query, check_research_needed, do_research, parse_results,
      generate_response; frame.
Qed.

Lemma exec_extends (tools : Tools) (ns : list step_name) :
  preserves extends (exec tools ns).
Proof.
  induction ns as [|n ns IH]; cbn [exec].
  - apply (preserves_ret extends).
  - apply (preserves_bind extends); [apply step_extends | intros _; exact IH].
Qed.

Lemma bind_ret_tt (m : M unit) (w : World) : bind m (fun _ => ret tt) w = m w.
Proof. unfold bind, ret. destruct (m w) as [[[]|e] w']; reflexivity. Qed.

Lemma bind_ext {A B} (m : M A) (k1 k2 : A -> M B) (w : World) :
  (forall a w', k1 a w' = k2 a w') -> bind m k1 w = bind m k2 w.
Proof. intros H. unfold bind. destruct (m w) as [[a|e] w']; auto. Qed.

Lemma workflow_exec (tools : Tools) (w : World) :
  workflow tools w = exec tools nodes w.
Proof.
  unfold workflow, nodes. cbn [exec step].
  do 4 (apply bind_ext; clear w; intros _ w).
  symmetry. apply bind_ret_tt.
Qed.

(** C9: no step changes the query.  Whatever the tools answer, and whether
    the run returns or raises, the state left by the workflow (and by each of
    the five steps) has the query of the state it started from. *)
Theorem C9_query_unchanged (tools : Tools) (w : World) :
  query (state (snd (workflow tools w))) = query (state w) /\
  (forall n : step_name,
     query (state (snd (step tools n w))) = query (state w)).
Proof.
  split.
  - rewrite workflow_exec. apply exec_extends.
  - intros n. apply step_extends.
Qed.

(** ** The length of the reasoning chain *)

Lemma step_skips (tools : Tools) (n : step_name) (w : World) :
  skips n (state w) = true -> step tools n w = (Ok tt, w).
Proof.
  destruct w as [s cs]. destruct n; cbn [skips state]; intros H.
  - discriminate.
  - unfold step, check_research_needed, bind, get. cbn [state]. now rewrite H.
  - unfold step, do_research, bind, get. cbn [state]. now rewrite H.
  - unfold step, parse_results, bind, get. cbn [state].
    now destruct (research_results s).
  - discriminate.
Qed.

Ltac unfold_steps :=
  unfold step, classify_query, check_research_needed, do_research,
    parse_results, generate_response, bind, get, modify, invoke, ret, raise.

Ltac chain_suffix :=
  first
    [ exists []; split; [symmetry; apply app_nil_r | reflexivity]
    | eexists [_]; split; reflexivity ].

Lemma step_appended (tools : Tools) (n : step_name) (w w' : World) :
  step tools n w = (Ok tt, w') ->
  exists suffix,
    reasoning_chain (state w') = (reasoning_chain (state w) ++ suffix)%list
    /\ List.length suffix + b2n (silent tools n (state w))
       = b2n (negb (skips n (state w))).
Proof.
  destruct w as [[q cooking needs research r chain final] cs].
  destruct n; unfold_steps; cbn.
  - destruct (tool_classify_query tools q) as [b|e]; intros [= <-]; cbn.
    chain_suffix.
  - destruct cooking; cbn.
    + destruct (tool_needs_research tools q) as [b|e]; intros [= <-]; cbn.
      chain_suffix.
    + intros [= <-]; cbn. chain_suffix.
  - destruct needs; cbn.
    + destruct (tool_search_recipes tools q) as [[|x l]|e]; intros [= <-]; cbn;
        chain_suffix.
    + intros [= <-]; cbn. chain_suffix.
  - destruct research as [|x l]; cbn.
    + intros [= <-]; cbn. chain_suffix.
    + destruct (tool_parse_recipe tools (x :: l)) as [o|e]; intros [= <-]; cbn.
      chain_suffix.
  - destruct cooking; cbn.
    + destruct (tool_generate_response tools q r toolset) as [t|e];
        [|discriminate].
      destruct (PyStr.truthy t); cbn; [|discriminate].
      intros [= <-]; cbn. chain_suffix.
    + intros [= <-]; cbn. chain_suffix.
Qed.

Lemma exec_appended (tools : Tools) (ns : list step_name) (w w' : World) :
  exec tools ns w = (Ok tt, w') ->
  exists suffix,
    reasoning_chain (state w') = (reasoning_chain (state w) ++ suffix)%list
    /\ List.length suffix + quiet tools ns w = worked tools ns w.
Proof.
  revert w. induction ns as [|n ns IH]; intros w; cbn [exec worked quiet].
  - intros [= <-]. chain_suffix.
  - unfold bind. destruct (step tools n w) as [[[]|e] w1] eqn:E; [|discriminate].
    intros H. apply IH in H as (s2 & H2 & L2).
    apply step_appended in E as (s1 & H1 & L1).
    exists (s1 ++ s2)%list. split.
    + now rewrite H2, H1, app_assoc.
    + rewrite length_app. lia.
Qed.

Lemma quiet_bound (tools : Tools) (ns : list step_name) (w : World) :
  quiet tools ns w <= sum_list (may_be_silent <$> ns).
Proof.
  revert w. induction ns as [|n ns IH]; intros w; cbn [quiet fmap list_fmap sum_list];
    [lia|].
  assert (b2n (silent tools n (state w)) <= may_be_silent n) as Hn.
  { destruct n; cbn [silent may_be_silent b2n]; try lia;
      match goal with |- b2n ?b <= 1 => destruct b; cbn [b2n]; lia end. }
  destruct (step tools n w) as [[[]|e] w1]; [specialize (IH w1)|]; cbn in *; lia.
Qed.

(** C5, as the claim states it, fails on the code.  With a cooking query
    that needs research and a search that finds nothing, four steps pass
    their guard and do work (classify, check_research, research, respond;
    only parse skips), yet the chain gains three entries: the search step
    called its tool, stored the empty result and appended nothing. *)
Lemma C5_length_counterexample :
  ~ (forall (tools : Tools) (w w' : World),
       workflow tools w = (Ok tt, w') ->
       exists suffix,
         reasoning_chain (state w') = (reasoning_chain (state w) ++ suffix)%list
         /\ List.length suffix = worked tools nodes w).
Proof.
  intros H.
  pose (w := mkWorld (AgentState_init "rice") []).
  assert (workflow Samples.nothing_found w
          = (Ok tt, snd (workflow Samples.nothing_found w))) as Hrun
    by (vm_compute; reflexivity).
  destruct (H _ _ _ Hrun) as (suffix & Hs & Hl).
  vm_compute in Hs, Hl. subst suffix. discriminate.
Qed.

(** C5, amended: after the workflow has run, the reasoning chain is the
    chain of the initial state followed by the entries appended since
    (nothing is removed or reordered, also when a step raises); a step whose
    guard makes it skip returns the state as it is and appends nothing; and
    when the workflow returns, the number of appended entries is the number
    of steps that did not skip, less the steps that took one of the two
    branches that work without appending: do_research when the search
    returns nothing, and generate_response when it refuses. *)
Theorem C5_reasoning_chain (tools : Tools) (w : World) :
  reasoning_chain (state w)
    `prefix_of` reasoning_chain (state (snd (workflow tools w))) /\
  (forall n : step_name,
     skips n (state w) = true -> step tools n w = (Ok tt, w)) /\
  (forall w' : World,
     workflow tools w = (Ok tt, w') ->
     exists suffix,
       reasoning_chain (state w') = (reasoning_chain (state w) ++ suffix)%list
       /\ List.length suffix + quiet tools nodes w = worked tools nodes w
       /\ quiet tools nodes w <= 2).
Proof.
  repeat apply conj.
  - rewrite workflow_exec. apply exec_extends.
  - intros n. apply step_skips.
  - intros w' H. rewrite workflow_exec in H.
    apply exec_appended in H as (suffix & Hs & Hl).
    exists suffix. repeat split; [assumption..|].
    apply (quiet_bound tools nodes w).
Qed.

Lemma C5_reasoning_chain_witness :
  exists suffix,
    reasoning_chain (state (snd (run Samples.nothing_found "rice")))
    = ([] ++ suffix)%list
    /\ List.length suffix + 1 = 4.
Proof.
  pose proof (C5_reasoning_chain Samples.nothing_found
                (mkWorld (AgentState_init "rice") [])) as (_ & _ & H).
  destruct (H (snd (run Samples.nothing_found "rice")))
    as (suffix & Hs & Hl & _).
  - vm_compute. reflexivity.
  - exists suffix. split; [exact Hs | exact Hl].
Defined.

(** ** The steps, branch by branch *)

(** C1: when the classification tool answers false for a query, the run
    from the fresh state calls that tool and no other; check_research_needed,
    do_research and parse_results return the state they are given unchanged;
    the fields keep their defaults, final_response is the refusal text and
    the reasoning chain has exactly one entry, the classification. *)
Theorem C1_not_cooking (tools : Tools) (q : string) :
  tool_classify_query tools q = Ok false ->
  let classified :=
    mkWorld (mkAgentState q false false [] None
               ["Query classification: not cooking-related"] None)
            [CallClassify q] in
  classify_query tools (mkWorld (AgentState_init q) []) = (Ok tt, classified) /\
  check_research_needed tools classified = (Ok tt, classified) /\
  do_research tools classified = (Ok tt, classified) /\
  parse_results tools classified = (Ok tt, classified) /\
  run tools q =
    (Ok tt,
     mkWorld (mkAgentState q false false [] None
                ["Query classification: not cooking-related"] (Some refusal))
             [CallClassify q]) /\
  List.length (reasoning_chain (state (snd (run tools q)))) = 1.
Proof.
  intros H classified.
  assert (classify_query tools (mkWorld (AgentState_init q) [])
          = (Ok tt, classified)) as Hc.
  { unfold_steps. cbn. rewrite H. reflexivity. }
  assert (run tools q =
            (Ok tt,
             mkWorld (mkAgentState q false false [] None
                        ["Query classification: not cooking-related"]
                        (Some refusal))
                     [CallClassify q])) as Hrun.
  { unfold run, workflow. unfold bind at 1. rewrite Hc. reflexivity. }
  repeat apply conj; try reflexivity; try assumption.
  now rewrite Hrun.
Qed.

Lemma C1_not_cooking_witness :
  run Samples.off_topic "What is the capital of France?" =
    (Ok tt,
     mkWorld (mkAgentState "What is the capital of France?" false false [] None
                ["Query classification: not cooking-related"] (Some refusal))
             [CallClassify "What is the capital of France?"]).
Proof.
  exact (proj1 (proj2 (proj2 (proj2 (proj2
    (C1_not_cooking Samples.off_topic "What is the capital of France?"
       eq_refl)))))).
Defined.

(** C2: in a state that needs research, when the search tool returns the
    empty list do_research sets research_results to the empty list and
    appends nothing to the reasoning chain, the run goes on, and
    parse_results skips on the state so obtained, calling no tool; when the
    search tool returns a non-empty list do_research stores that list and
    appends exactly "Performed recipe research". *)
Theorem C2_do_research (tools : Tools) (w : World) :
  needs_research (state w) = true ->
  let q := query (state w) in
  let searched (l : list string) :=
    mkWorld (set_research_results l (state w)) (calls w ++ [CallSearch q]) in
  (tool_search_recipes tools q = Ok [] ->
     do_research tools w = (Ok tt, searched [])
     /\ research_results (state (searched [])) = []
     /\ reasoning_chain (state (searched [])) = reasoning_chain (state w)
     /\ parse_results tools (searched []) = (Ok tt, searched [])
     /\ bind (do_research tools) (fun _ => parse_results tools) w
        = (Ok tt, searched [])) /\
  (forall (x : string) (l : list string),
     tool_search_recipes tools q = Ok (x :: l) ->
     do_research tools w =
       (Ok tt,
        mkWorld (reasoning_chain_append "Performed recipe research"
                   (set_research_results (x :: l) (state w)))
                (calls w ++ [CallSearch q]))
     /\ research_results (state (snd (do_research tools w))) = x :: l
     /\ reasoning_chain (state (snd (do_research tools w)))
        = (reasoning_chain (state w) ++ ["Performed recipe research"])%list).
Proof.
  intros Hn q searched.
  assert (forall l, tool_search_recipes tools q = Ok l ->
            do_research tools w =
              match l with
              | [] => (Ok tt, searched [])
              | _ :: _ =>
                  (Ok tt,
                   mkWorld (reasoning_chain_append "Performed recipe research"
                              (set_research_results l (state w)))
                           (calls w ++ [CallSearch q]))
              end) as Hrun.
  { intros l Hl. subst q searched. destruct w as [s cs]. cbn [state calls] in *.
    unfold do_research, bind, get, invoke, modify. cbn [state calls].
    rewrite Hn. cbn [negb state calls]. rewrite Hl. destruct l; reflexivity. }
  split.
  - intros Hs. pose proof (Hrun _ Hs) as Hd. cbv beta iota in Hd.
    assert (parse_results tools (searched []) = (Ok tt, searched [])) as Hp
      by reflexivity.
    repeat apply conj; try reflexivity; try assumption.
    unfold bind at 1. rewrite Hd. exact Hp.
  - intros x l Hs. pose proof (Hrun _ Hs) as Hd. cbv beta iota in Hd.
    rewrite Hd. repeat apply conj; reflexivity.
Qed.

Lemma C2_do_research_witness :
  do_research Samples.nothing_found (mkWorld Samples.cooking_state [])
  = (Ok tt,
     mkWorld (set_research_results [] Samples.cooking_state) [CallSearch "rice"])
  /\ do_research Samples.found (mkWorld Samples.cooking_state [])
     = (Ok tt,
        mkWorld (reasoning_chain_append "Performed recipe research"
                   (set_research_results ["a"; "b"; "c"] Samples.cooking_state))
                [CallSearch "rice"]).
Proof.
  split.
  - exact (proj1 (proj1
      (C2_do_research Samples.nothing_found (mkWorld Samples.cooking_state [])
         eq_refl) eq_refl)).
  - exact (proj1 (proj2
      (C2_do_research Samples.found (mkWorld Samples.cooking_state []) eq_refl)
      "a" ["b"; "c"] eq_refl)).
Defined.

(** C7: in a state that is cooking-related, when the response tool returns
    the empty string generate_response raises an error and leaves the state,
    final_response included, as it was; when the tool returns a non-empty
    string it sets final_response to that string and appends exactly
    "Generated final response".  With the tools built by create_tools, a
    language model that answers with empty content makes the step raise as
    well, through the error of generate_cooking_response. *)
Theorem C7_generate_response (tools : Tools) (w : World) :
  is_cooking_related (state w) = true ->
  let q := query (state w) in
  let r := recipe (state w) in
  let called := (calls w ++ [CallRespond q r toolset])%list in
  (tool_generate_response tools q r toolset = Ok "" ->
     generate_response tools w
     = (Raise (ValueError "Response generation failed"), mkWorld (state w) called)
     /\ final_response (state (snd (generate_response tools w)))
        = final_response (state w)) /\
  (forall response : string,
     response <> "" ->
     tool_generate_response tools q r toolset = Ok response ->
     generate_response tools w
     = (Ok tt,
        mkWorld (reasoning_chain_append "Generated final response"
                   (set_final_response response (state w))) called)
     /\ final_response (state (snd (generate_response tools w))) = Some response
     /\ reasoning_chain (state (snd (generate_response tools w)))
        = (reasoning_chain (state w) ++ ["Generated final response"])%list) /\
  (forall llm ddgs loads,
     (forall p, llm p = Ok "") ->
     generate_response (create_tools llm ddgs loads) w
     = (Raise (ValueError "Failed to generate response content"),
        mkWorld (state w) called)).
Proof.
  intros Hc q r called. subst q r called. destruct w as [s cs].
  cbn [state calls] in *.
  assert (forall t res,
            tool_generate_response t (query s) (recipe s) toolset = res ->
            generate_response t (mkWorld s cs) =
              let called := (cs ++ [CallRespond (query s) (recipe s) toolset])%list in
              match res with
              | Ok response =>
                  if negb (PyStr.truthy response)
                  then (Raise (ValueError "Response generation failed"),
                        mkWorld s called)
                  else (Ok tt,
                        mkWorld (reasoning_chain_append "Generated final response"
                                   (set_final_response response s)) called)
              | Raise e => (Raise e, mkWorld s called)
              end) as Hrun.
  { intros t res <-. unfold generate_response, bind, get, invoke, modify, raise.
    cbn [state calls]. rewrite Hc. cbn [negb state calls].
    destruct (tool_generate_response t (query s) (recipe s) toolset) as [x|e];
      [|reflexivity].
    destruct (PyStr.truthy x); reflexivity. }
  repeat apply conj.
  - intros H. rewrite (Hrun _ _ H). split; reflexivity.
  - intros response Hne H. rewrite (Hrun _ _ H). cbv zeta.
    assert (PyStr.truthy response = true) as ->.
    { unfold PyStr.truthy. apply negb_true_iff, String.eqb_neq, Hne. }
    repeat split; reflexivity.
  - intros llm ddgs loads Hllm. rewrite (Hrun _ _ eq_refl).
    cbn [create_tools tool_generate_response]. unfold generate_cooking_response.
    destruct (recipe s); [|destruct (PyStr.contains _ _)];
      rewrite Hllm; reflexivity.
Qed.

Lemma C7_generate_response_witness :
  generate_response Samples.speechless (mkWorld Samples.cooking_state [])
  = (Raise (ValueError "Response generation failed"),
     mkWorld Samples.cooking_state [CallRespond "rice" None toolset])
  /\ generate_response Samples.found (mkWorld Samples.cooking_state [])
     = (Ok tt,
        mkWorld (reasoning_chain_append "Generated final response"
                   (set_final_response "## Risotto" Samples.cooking_state))
                [CallRespond "rice" None toolset]).
Proof.
  pose proof (C7_generate_response Samples.speechless
                (mkWorld Samples.cooking_state []) eq_refl) as [H1 _].
  pose proof (C7_generate_response Samples.found
                (mkWorld Samples.cooking_state []) eq_refl) as (_ & H2 & _).
  split.
  - exact (proj1 (H1 eq_refl)).
  - refine (proj1 (H2 "## Risotto" _ eq_refl)). discriminate.
Defined.

(** ** The run as a function of the answers *)

Lemma step_agree (t1 t2 : Tools) (n : step_name) (w : World) :
  Forall (agree_on t1 t2) (calls (snd (step t1 n w))) ->
  step t1 n w = step t2 n w.
Proof.
  destruct w as [[q cooking needs research r chain final] cs].
  assert (forall c, Forall (agree_on t1 t2) (cs ++ [c]) -> agree_on t1 t2 c) as Hlast.
  { intros c [_ Hc]%Forall_app. now inversion Hc. }
  destruct n; unfold_steps; cbn.
  - destruct (tool_classify_query t1 q) as [b|e] eqn:E; cbn;
      intros H%Hlast; cbn in H; rewrite <- H, E; reflexivity.
  - destruct cooking; cbn; [|reflexivity].
    destruct (tool_needs_research t1 q) as [b|e] eqn:E; cbn;
      intros H%Hlast; cbn in H; rewrite <- H, E; reflexivity.
  - destruct needs; cbn; [|reflexivity].
    destruct (tool_search_recipes t1 q) as [[|x l]|e] eqn:E; cbn;
      intros H%Hlast; cbn in H; rewrite <- H, E; reflexivity.
  - destruct research as [|x l]; cbn; [reflexivity|].
    destruct (tool_parse_recipe t1 (x :: l)) as [o|e] eqn:E; cbn;
      intros H%Hlast; cbn in H; rewrite <- H, E; reflexivity.
  - destruct cooking; cbn; [|reflexivity].
    destruct (tool_generate_response t1 q r toolset) as [x|e] eqn:E; cbn.
    + destruct (PyStr.truthy x) eqn:T; cbn;
        intros H%Hlast; cbn in H; rewrite <- H, E, T; reflexivity.
    + intros H%Hlast; cbn in H; rewrite <- H, E; reflexivity.
Qed.

Lemma exec_agree (t1 t2 : Tools) (ns : list step_name) (w : World) :
  Forall (agree_on t1 t2) (calls (snd (exec t1 ns w))) ->
  exec t1 ns w = exec t2 ns w.
Proof.
  revert w. induction ns as [|n ns IH]; intros w; cbn [exec]; [reflexivity|].
  unfold bind. pose proof (step_agree t1 t2 n w) as Hn.
  destruct (step t1 n w) as [[[]|e] w1]; cbn [snd] in *.
  - intros H. rewrite <- Hn.
    + apply IH, H.
    + destruct (exec_extends t1 ns w1) as (_ & _ & [k Hk]).
      rewrite Hk in H. now apply Forall_app in H.
  - intros H. now rewrite <- Hn.
Qed.

(** C8: the run is a function of the query and of the answers of the tools.
    Two runs on the same query whose tools give the same answer to every
    call made end in the same state: same reasoning chain, same final
    response, same outcome. *)
Theorem C8_same_answers_same_run (t1 t2 : Tools) (q : string) :
  Forall (agree_on t1 t2) (calls (snd (run t1 q))) ->
  run t1 q = run t2 q
  /\ reasoning_chain (state (snd (run t1 q)))
     = reasoning_chain (state (snd (run t2 q)))
  /\ final_response (state (snd (run t1 q)))
     = final_response (state (snd (run t2 q))).
Proof.
  unfold run. rewrite !workflow_exec. intros H%exec_agree.
  rewrite H. auto.
Qed.

Lemma C8_same_answers_same_run_witness :
  run Samples.nothing_found "rice" = run Samples.nothing_found' "rice".
Proof.
  refine (proj1 (C8_same_answers_same_run
                   Samples.nothing_found Samples.nothing_found' "rice" _)).
  vm_compute. repeat constructor.
Defined.

(** ** The search tool *)

Section Search.

Variable ddgs_text : string -> nat -> result (list (gmap string string)).

Lemma bodies_ok (results : list (gmap string string)) :
  Forall (fun r => is_Some (r !! "body")) results ->
  exists l,
    rmap_list body_of results = Ok l
    /\ Forall2 (fun r b => r !! "body" = Some b) results l.
Proof.
  induction 1 as [|r results [b Hb] _ (l & Hl & IH)].
  - exists []. split; [reflexivity | constructor].
  - exists (b :: l). split.
    + cbn [rmap_list]. unfold body_of at 1. rewrite Hb. cbn [rbind].
      now rewrite Hl.
    + now constructor.
Qed.

Lemma search_recipes_raises (q : string) (e : exn) :
  ddgs_text ("recipe " ++ q) 3 = Raise e ->
  search_recipes ddgs_text q = Raise e.
Proof. intros H. unfold search_recipes. now rewrite H. Qed.

Lemma search_recipes_bodies (q : string) (results : list (gmap string string)) :
  ddgs_text ("recipe " ++ q) 3 = Ok results ->
  Forall (fun r => is_Some (r !! "body")) results ->
  exists l,
    search_recipes ddgs_text q = Ok l
    /\ Forall2 (fun r b => r !! "body" = Some b) results l.
Proof.
  intros H Hb. unfold search_recipes. rewrite H. cbn [rbind].
  exact (bodies_ok results Hb).
Qed.

End Search.

(** C6, as the claim states it, fails on the code: search_recipes has no
    handler, so with a search service that raises it raises too instead of
    returning the empty list. *)
Lemma C6_never_fails_counterexample :
  ~ (forall (ddgs_text : string -> nat -> result (list (gmap string string)))
            (q : string),
       exists l, search_recipes ddgs_text q = Ok l /\ List.length l <= 3).
Proof.
  intros H. destruct (H Samples.ddgs_down "risotto") as (l & Hl & _).
  discriminate.
Qed.

(** C6, amended: for every query, when the underlying search returns its
    results, each with a body, the search tool returns their bodies in
    order, one string per result, hence at most 3 strings when the service
    returns at most the 3 results asked for; an error of the underlying
    search is not suppressed: the tool raises it, and do_research raises it
    in turn, having changed nothing but the record of calls. *)
Theorem C6_search_recipes
    (ddgs_text : string -> nat -> result (list (gmap string string)))
    (q : string) :
  (forall e : exn,
     ddgs_text ("recipe " ++ q) 3 = Raise e ->
     search_recipes ddgs_text q = Raise e) /\
  (forall results : list (gmap string string),
     ddgs_text ("recipe " ++ q) 3 = Ok results ->
     Forall (fun r => is_Some (r !! "body")) results ->
     exists l,
       search_recipes ddgs_text q = Ok l
       /\ Forall2 (fun r b => r !! "body" = Some b) results l
       /\ List.length l = List.length results
       /\ (List.length results <= 3 -> List.length l <= 3)) /\
  (forall (tools : Tools) (w : World) (e : exn),
     needs_research (state w) = true ->
     tool_search_recipes tools (query (state w)) = Raise e ->
     do_research tools w
     = (Raise e,
        mkWorld (state w) (calls w ++ [CallSearch (query (state w))]))).
Proof.
  repeat apply conj.
  - intros e. apply search_recipes_raises.
  - intros results H Hb.
    destruct (search_recipes_bodies ddgs_text q results H Hb) as (l & Hl & Hf).
    exists l. pose proof (Forall2_length _ _ _ Hf) as Hlen.
    repeat split; [assumption.. | congruence | lia].
  - intros tools [s cs] e Hn He. cbn [state calls] in *.
    unfold do_research, bind, get, invoke. cbn [state calls].
    rewrite Hn. cbn [negb state calls]. now rewrite He.
Qed.

Lemma C6_search_recipes_witness :
  search_recipes Samples.ddgs_down "risotto"
  = Raise (OtherError "connection timed out")
  /\ exists l,
       search_recipes Samples.ddgs_two "risotto" = Ok l
       /\ List.length l = 2.
Proof.
  pose proof (C6_search_recipes Samples.ddgs_down "risotto") as (H1 & _).
  pose proof (C6_search_recipes Samples.ddgs_two "risotto") as (_ & H2 & _).
  split.
  - exact (H1 _ eq_refl).
  - destruct (H2 _ eq_refl) as (l & Hl & _ & Hlen & _).
    + repeat constructor; vm_compute; eauto.
    + exists l. split; [exact Hl | exact Hlen].
Defined.

(** ** Worked runs *)

Example search_two_bodies :
  search_recipes Samples.ddgs_two "risotto" = Ok ["Stir the rice."; "Boil it."].
Proof. vm_compute. reflexivity. Qed.

(** The risotto scenario: four entries before the response step, a fifth
    when it succeeds. *)
Example run_found :
  run Samples.found "How do I make a risotto?"
  = (Ok tt,
     mkWorld
       (mkAgentState "How do I make a risotto?" true true ["a"; "b"; "c"]
          (Some Samples.risotto)
          ["Query classification: cooking-related"; "Research needed";
           "Performed recipe research"; "Recipe parsed successfully";
           "Generated final response"]
          (Some "## Risotto"))
       [CallClassify "How do I make a risotto?";
        CallNeedsResearch "How do I make a risotto?";
        CallSearch "How do I make a risotto?";
        CallParse ["a"; "b"; "c"];
        CallRespond "How do I make a risotto?" (Some Samples.risotto) toolset]).
Proof. vm_compute. reflexivity. Qed.

(** A search without results: no entry for the search, no call to the
    parser. *)
Example run_nothing_found :
  run Samples.nothing_found "rice"
  = (Ok tt,
     mkWorld
       (mkAgentState "rice" true true [] None
          ["Query classification: cooking-related"; "Research needed";
           "Generated final response"]
          (Some "Here is how."))
       [CallClassify "rice"; CallNeedsResearch "rice"; CallSearch "rice";
        CallRespond "rice" None toolset]).
Proof. vm_compute. reflexivity. Qed.

(** An empty response is an error of the run; final_response stays unset. *)
Example run_speechless :
  run Samples.speechless "rice"
  = (Raise (ValueError "Response generation failed"),
     mkWorld
       (mkAgentState "rice" true false [] None
          ["Query classification: cooking-related"; "Research not needed"]
          None)
       [CallClassify "rice"; CallNeedsResearch "rice";
        CallRespond "rice" None toolset]).
Proof. vm_compute. reflexivity. Qed.

(** Empty content from the language model is an error of the response tool,
    which the step passes on. *)
Example run_mute_llm :
  fst (generate_response
         (create_tools Samples.mute_llm Samples.ddgs_down Samples.no_json)
         (mkWorld Samples.cooking_state []))
  = Raise (ValueError "Failed to generate response content").
Proof. vm_compute. reflexivity. Qed.

Example how_to_cook_prompt :
  generate_cooking_response
    (fun p => match p with
              | HOW_TO_COOK_PROMPT dish _ => Ok dish
              | _ => Ok "other"
              end)
    "How to cook rice" None ToolSet_default
  = Ok "rice".
Proof. vm_compute. reflexivity. Qed.

Example parse_recipe_bad_json :
  parse_recipe (fun _ => Ok "not json") Samples.no_json ["a"] = Ok None.
Proof. reflexivity. Qed.

Example risotto_can_be_cooked :
  can_cook_recipe ToolSet_default (Some Samples.risotto) = true.
Proof. vm_compute. reflexivity. Qed.

(** * Further properties *)

(** ** Stripping and lower-casing *)

Lemma rstrip_nonspace (c : ascii) (s : string) :
  PyStr.isspace c = false ->
  PyStr.rstrip (String c s) = String c (PyStr.rstrip s).
Proof.
  intros H. cbn [PyStr.rstrip]. rewrite H. now destruct (PyStr.rstrip s).
Qed.

Lemma rstrip_idem (s : string) : PyStr.rstrip (PyStr.rstrip s) = PyStr.rstrip s.
Proof.
  induction s as [|c s IH]; [reflexivity|].
  cbn [PyStr.rstrip]. destruct (PyStr.rstrip s) as [|d r] eqn:E.
  - destruct (PyStr.isspace c) eqn:Hc; [reflexivity|].
    cbn [PyStr.rstrip]. now rewrite Hc.
  - cbn [PyStr.rstrip] in *. now rewrite IH.
Qed.

Lemma lstrip_head (s : string) (c : ascii) (t : string) :
  PyStr.lstrip s = String c t -> PyStr.isspace c = false.
Proof.
  induction s as [|d s IH]; [discriminate|].
  cbn [PyStr.lstrip]. destruct (PyStr.isspace d) eqn:Hd; [exact IH|].
  now intros [= <- _].
Qed.

Lemma lstrip_idem (s : string) : PyStr.lstrip (PyStr.lstrip s) = PyStr.lstrip s.
Proof.
  destruct (PyStr.lstrip s) as [|c t] eqn:E; [reflexivity|].
  apply lstrip_head in E. cbn [PyStr.lstrip]. now rewrite E.
Qed.

Lemma lstrip_strip (s : string) : PyStr.lstrip (PyStr.strip s) = PyStr.strip s.
Proof.
  unfold PyStr.strip. destruct (PyStr.lstrip s) as [|c t] eqn:E; [reflexivity|].
  apply lstrip_head in E. rewrite (rstrip_nonspace c t E).
  cbn [PyStr.lstrip]. now rewrite E.
Qed.

Lemma rstrip_strip (s : string) : PyStr.rstrip (PyStr.strip s) = PyStr.strip s.
Proof. apply rstrip_idem. Qed.

Lemma strip_idem (s : string) : PyStr.strip (PyStr.strip s) = PyStr.strip s.
Proof.
  unfold PyStr.strip at 1. rewrite lstrip_strip. apply rstrip_strip.
Qed.

Lemma rstrip_all_space (b : string) :
  all_space b = true -> PyStr.rstrip b = EmptyString.
Proof.
  induction b as [|c b IH]; [reflexivity|].
  cbn [all_space PyStr.rstrip]. intros [Hc Hb]%andb_true_iff.
  now rewrite (IH Hb), Hc.
Qed.

Lemma lstrip_pad (a x : string) :
  all_space a = true -> PyStr.lstrip (a ++ x) = PyStr.lstrip x.
Proof.
  induction a as [|c a IH]; [reflexivity|].
  cbn [all_space]. intros [Hc Ha]%andb_true_iff.
  rewrite append_cons. cbn [PyStr.lstrip]. rewrite Hc. auto.
Qed.

Lemma rstrip_pad (x b : string) :
  all_space b = true -> PyStr.rstrip (x ++ b) = PyStr.rstrip x.
Proof.
  intros Hb. induction x as [|c x IH].
  - rewrite append_nil. now apply rstrip_all_space.
  - rewrite append_cons. cbn [PyStr.rstrip]. now rewrite IH.
Qed.

Lemma lstrip_app_nonempty (x b : string) :
  PyStr.lstrip x <> EmptyString -> PyStr.lstrip (x ++ b) = PyStr.lstrip x ++ b.
Proof.
  induction x as [|c x IH]; [contradiction|].
  rewrite append_cons. cbn [PyStr.lstrip].
  destruct (PyStr.isspace c); [exact IH | now rewrite append_cons].
Qed.

Lemma lstrip_empty_all_space (x : string) :
  PyStr.lstrip x = EmptyString -> all_space x = true.
Proof.
  induction x as [|c x IH]; [reflexivity|].
  cbn [PyStr.lstrip all_space]. destruct (PyStr.isspace c); [exact IH | discriminate].
Qed.

Lemma lstrip_all_space (s : string) :
  all_space s = true -> PyStr.lstrip s = EmptyString.
Proof.
  induction s as [|c s IH]; [reflexivity|].
  cbn [all_space PyStr.lstrip]. intros [-> Hs]%andb_true_iff. auto.
Qed.

Lemma all_space_app (a b : string) :
  all_space (a ++ b) = all_space a && all_space b.
Proof.
  induction a as [|c a IH]; [reflexivity|].
  rewrite append_cons. cbn [all_space]. now rewrite IH, andb_assoc.
Qed.

(** White space around a string does not change what it strips to. *)
Lemma strip_pad (a x b : string) :
  all_space a = true -> all_space b = true ->
  PyStr.strip (a ++ x ++ b) = PyStr.strip x.
Proof.
  intros Ha Hb. unfold PyStr.strip. rewrite (lstrip_pad a _ Ha).
  destruct (PyStr.lstrip x) as [|c t] eqn:E.
  - apply lstrip_empty_all_space in E.
    rewrite lstrip_all_space; [reflexivity|].
    now rewrite all_space_app, E, Hb.
  - rewrite lstrip_app_nonempty by (rewrite E; discriminate).
    rewrite E. now apply rstrip_pad.
Qed.

Lemma lower_char_idem (c : ascii) :
  PyStr.lower_char (PyStr.lower_char c) = PyStr.lower_char c.
Proof. destruct c as [[] [] [] [] [] [] [] []]; reflexivity. Qed.

Lemma lower_char_space (c : ascii) :
  PyStr.isspace c = true -> PyStr.lower_char c = c.
Proof. destruct c as [[] [] [] [] [] [] [] []]; (reflexivity || discriminate). Qed.

Lemma lower_idem (s : string) : PyStr.lower (PyStr.lower s) = PyStr.lower s.
Proof.
  induction s as [|c s IH]; [reflexivity|].
  cbn [PyStr.lower]. now rewrite lower_char_idem, IH.
Qed.

Lemma lower_app (a b : string) :
  PyStr.lower (a ++ b) = PyStr.lower a ++ PyStr.lower b.
Proof.
  induction a as [|c a IH]; [reflexivity|].
  rewrite append_cons. cbn [PyStr.lower]. now rewrite IH, append_cons.
Qed.

Lemma lower_all_space (a : string) :
  all_space a = true -> PyStr.lower a = a.
Proof.
  induction a as [|c a IH]; [reflexivity|].
  cbn [all_space PyStr.lower]. intros [Hc Ha]%andb_true_iff.
  now rewrite (lower_char_space c Hc), (IH Ha).
Qed.

Lemma truthy_spec (s : string) : PyStr.truthy s = true <-> s <> EmptyString.
Proof.
  unfold PyStr.truthy. rewrite negb_true_iff. apply String.eqb_neq.
Qed.

Lemma strip_empty_iff (s : string) :
  PyStr.strip s = EmptyString <-> all_space s = true.
Proof.
  unfold PyStr.strip. split.
  - destruct (PyStr.lstrip s) as [|c t] eqn:E.
    + intros _. now apply lstrip_empty_all_space.
    + apply lstrip_head in E. rewrite (rstrip_nonspace c t E). discriminate.
  - intros H. now rewrite (lstrip_all_space s H).
Qed.

Lemma truthy_strip (s : string) :
  PyStr.truthy (PyStr.strip s) = negb (all_space s).
Proof.
  destruct (all_space s) eqn:E.
  - apply strip_empty_iff in E. now rewrite E.
  - apply truthy_spec. intros H%strip_empty_iff. congruence.
Qed.

(** ** The request and response validators *)

(** X1: validate_query rejects exactly the queries made of white space only
    (the empty query among them), with the error "Query cannot be empty";
    any other query is accepted as its stripped form, which is not empty,
    has no white space at either end, and is accepted unchanged when it is
    validated again. *)
Theorem validate_query_accepts (v : string) :
  match validate_query v with
  | Ok w =>
      all_space v = false /\ w = PyStr.strip v /\ w <> EmptyString
      /\ PyStr.lstrip w = w /\ PyStr.rstrip w = w
      /\ validate_query w = Ok w
  | Raise e =>
      all_space v = true /\ e = ValueError "Query cannot be empty"
  end.
Proof.
  assert (forall u, validate_query u
                    = if all_space u then Raise (ValueError "Query cannot be empty")
                      else Ok (PyStr.strip u)) as Heq.
  { intros u. unfold validate_query. now rewrite truthy_strip, negb_involutive. }
  rewrite Heq. destruct (all_space v) eqn:E; [auto|].
  assert (PyStr.strip v <> EmptyString) as Hne
    by (intros H%strip_empty_iff; congruence).
  repeat split; auto using lstrip_strip, rstrip_strip.
  rewrite Heq, strip_idem.
  destruct (all_space (PyStr.strip v)) eqn:E'; [|reflexivity].
  apply strip_empty_iff in E'. rewrite strip_idem in E'. contradiction.
Qed.

(** X2: validate_response never returns the empty string: a response made
    of white space only becomes "No response generated", any other becomes
    its stripped form; the result has no white space at either end and is a
    fixed point of the validator. *)
Theorem validate_response_not_empty (v : string) :
  validate_response v
  = (if all_space v then "No response generated" else PyStr.strip v)
  /\ validate_response v <> EmptyString
  /\ PyStr.strip (validate_response v) = validate_response v
  /\ validate_response (validate_response v) = validate_response v.
Proof.
  assert (validate_response v
          = if all_space v then "No response generated" else PyStr.strip v) as H.
  { unfold validate_response. cbv zeta. rewrite truthy_strip, negb_involutive.
    reflexivity. }
  assert (forall w, w <> EmptyString -> PyStr.strip w = w ->
                    validate_response w = w) as Hfix.
  { intros w Hw Hs. unfold validate_response. cbv zeta. rewrite Hs.
    apply truthy_spec in Hw. now rewrite Hw. }
  rewrite H. destruct (all_space v) eqn:E.
  - repeat split; try reflexivity. discriminate.
  - assert (PyStr.strip v <> EmptyString) as Hne
      by (intros Hs%strip_empty_iff; congruence).
    repeat split; auto using strip_idem.
Qed.

Lemma filter_truthy_nil (v : list string) :
  List.filter PyStr.truthy v = [] <-> Forall (fun x => x = EmptyString) v.
Proof.
  induction v as [|x v IH]; cbn [List.filter].
  - split; [constructor | reflexivity].
  - destruct (PyStr.truthy x) eqn:T.
    + split; [discriminate|]. intros H. inversion H; subst. discriminate.
    + assert (x = EmptyString) as ->.
      { destruct (String.eqb_spec x EmptyString) as [->|N]; [reflexivity|].
        apply truthy_spec in N. congruence. }
      rewrite IH. split; [now constructor | intros H; now inversion H].
Qed.

(** X3: validate_reasoning_chain puts the default entry only in place of an
    empty chain.  A non-empty chain whose items are all empty strings comes
    out as the empty list; in general the result is never longer than the
    input (one entry for the empty input), its entries have no white space
    at either end, and a non-empty chain of non-empty entries without white
    space at their ends is returned unchanged. *)
Theorem validate_reasoning_chain_edges (v : list string) :
  (validate_reasoning_chain v = []
   <-> v <> [] /\ Forall (fun x => x = EmptyString) v)
  /\ List.length (validate_reasoning_chain v) <= Nat.max 1 (List.length v)
  /\ Forall (fun x => PyStr.strip x = x) (validate_reasoning_chain v)
  /\ (v <> [] ->
      Forall (fun x => x <> EmptyString /\ PyStr.strip x = x) v ->
      validate_reasoning_chain v = v).
Proof.
  split; [|split; [|split]].
  - destruct v as [|x v]; cbn [validate_reasoning_chain].
    + split; [discriminate | intros [H _]; contradiction].
    + split.
      * intros H. split; [discriminate|].
        apply filter_truthy_nil. now destruct (List.filter PyStr.truthy (x :: v)).
      * intros [_ H]. apply filter_truthy_nil in H. now rewrite H.
  - destruct v as [|x v]; cbn [validate_reasoning_chain]; [cbn; lia|].
    rewrite List.length_map.
    pose proof (List.filter_length_le PyStr.truthy (x :: v)) as Hle.
    cbn [List.length] in *. lia.
  - destruct v as [|x v]; cbn [validate_reasoning_chain].
    + repeat constructor.
    + apply Forall_forall. intros y Hy%list_elem_of_In.
      apply List.in_map_iff in Hy as (z & <- & _). apply strip_idem.
  - intros Hne Hall. destruct v as [|x v]; [contradiction|].
    cbn [validate_reasoning_chain]. clear Hne.
    induction Hall as [|y l [Hy Hs] _ IH]; [reflexivity|].
    cbn [List.filter]. apply truthy_spec in Hy. rewrite Hy.
    cbn [List.map]. now rewrite Hs, IH.
Qed.

Lemma validate_reasoning_chain_edges_witness :
  validate_reasoning_chain ["Query classification: cooking-related"; "Research needed"]
  = ["Query classification: cooking-related"; "Research needed"].
Proof.
  apply (proj2 (proj2 (proj2 (validate_reasoning_chain_edges _)))).
  - discriminate.
  - repeat constructor; discriminate.
Defined.

(** ** Recipes that passed validation *)

Lemma validate_cooking_time_ends (v w : string) :
  RecipeValidators.validate_cooking_time v = Ok w ->
  PyStr.endswith (PyStr.strip w) "minutes" = true.
Proof.
  unfold RecipeValidators.validate_cooking_time.
  destruct (PyStr.endswith (PyStr.strip v) "minutes") eqn:E;
    cbn [negb]; intros [= <-]; [exact E | apply appended_minutes].
Qed.

Lemma validate_cooking_time_fix (w : string) :
  PyStr.endswith (PyStr.strip w) "minutes" = true ->
  RecipeValidators.validate_cooking_time w = Ok w.
Proof.
  intros H. unfold RecipeValidators.validate_cooking_time. now rewrite H.
Qed.

Lemma Recipe_init_sound (raw r : Recipe) :
  Recipe_init raw = Ok r -> valid_recipe r /\ Recipe_init r = Ok r.
Proof.
  intros (Hd & Hs & Hc & Hr)%Recipe_init_ok.
  destruct r as [n i st t c d sv]. cbn [cooking_time] in *.
  injection Hr as -> -> -> -> -> ->.
  pose proof (validate_cooking_time_ends _ _ Hc) as He.
  split.
  - repeat split; assumption.
  - apply Recipe_init_ok. cbn [difficulty servings cooking_time name ingredients
      steps required_tools]. rewrite lower_idem.
    repeat split; try assumption. now apply validate_cooking_time_fix.
Qed.

(** X4: a Recipe that construction returns satisfies the rules of the
    validators (its difficulty is easy, medium or hard, its servings are at
    least 1, its stripped cooking_time ends in "minutes"), and constructing
    a Recipe again from its fields returns the same Recipe. *)
Theorem Recipe_init_valid (raw r : Recipe) :
  Recipe_init raw = Ok r -> valid_recipe r /\ Recipe_init r = Ok r.
Proof. apply Recipe_init_sound. Qed.

Lemma Recipe_init_valid_witness :
  valid_recipe
    (mkRecipe "Soup" ["water"] ["Boil"] ["Little Pot"] "20 minutes" "hard" 3).
Proof.
  refine (proj1 (Recipe_init_valid
                   (mkRecipe "Soup" ["water"] ["Boil"] ["Little Pot"] " 20 " "HARD" 3)
                   _ _)).
  vm_compute. reflexivity.
Defined.

(** ** The tool check, continued *)

Lemma can_cook_recipe_iff (ts : ToolSet) (r : Recipe) :
  can_cook_recipe ts (Some r) = true <->
  forall t, t ∈ required_tools r ->
    exists a, a ∈ available_tools ts /\ PyStr.lower a = PyStr.lower t.
Proof.
  cbn [can_cook_recipe]. rewrite bool_decide_eq_true, elem_of_subseteq. split.
  - intros H t Ht. apply elem_of_lowered, H, elem_of_lowered. eauto.
  - intros H t (a & Ha & <-)%elem_of_lowered. apply elem_of_lowered. auto.
Qed.

Lemma can_cook_recipe_ext (ts ts' : ToolSet) (r r' : Recipe) :
  (forall t, t ∈ PyStr.lower <$> required_tools r
             <-> t ∈ PyStr.lower <$> required_tools r') ->
  (forall t, t ∈ PyStr.lower <$> available_tools ts
             <-> t ∈ PyStr.lower <$> available_tools ts') ->
  can_cook_recipe ts (Some r) = can_cook_recipe ts' (Some r').
Proof.
  intros Hr Ha. cbn [can_cook_recipe]. apply bool_decide_ext.
  rewrite !elem_of_subseteq. setoid_rewrite elem_of_list_to_set.
  split; intros H t Ht; apply Ha, H, Hr, Ht.
Qed.

Lemma fmap_lower_idem (l : list string) :
  PyStr.lower <$> (PyStr.lower <$> l) = PyStr.lower <$> l.
Proof.
  induction l as [|x l IH]; [reflexivity|].
  cbn [fmap list_fmap] in *. now rewrite lower_idem, IH.
Qed.

(** X5: can_cook_recipe looks at the names only: the answer is the same
    when the required tools or the available tools are listed in another
    order, and the same when every name of both lists is replaced by its
    lower-cased form. *)
Theorem can_cook_recipe_order_and_case (ts ts' : ToolSet) (r r' : Recipe) :
  (required_tools r ≡ₚ required_tools r' ->
   available_tools ts ≡ₚ available_tools ts' ->
   can_cook_recipe ts (Some r) = can_cook_recipe ts' (Some r'))
  /\ (required_tools r' = PyStr.lower <$> required_tools r ->
      available_tools ts' = PyStr.lower <$> available_tools ts ->
      can_cook_recipe ts (Some r) = can_cook_recipe ts' (Some r')).
Proof.
  split.
  - intros Hr Ha. apply can_cook_recipe_ext; intros t.
    + now rewrite Hr.
    + now rewrite Ha.
  - intros Hr Ha. apply can_cook_recipe_ext; intros t.
    + now rewrite Hr, fmap_lower_idem.
    + now rewrite Ha, fmap_lower_idem.
Qed.

Lemma can_cook_recipe_order_and_case_witness :
  can_cook_recipe (mkToolSet ["Knife"; "Whisk"])
    (Some (mkRecipe "Eggs" ["eggs"] ["Beat"] ["WHISK"; "knife"] "5 minutes" "easy" 1))
  = can_cook_recipe (mkToolSet ["Whisk"; "Knife"])
      (Some (mkRecipe "Eggs" ["eggs"] ["Beat"] ["knife"; "WHISK"] "5 minutes" "easy" 1)).
Proof.
  apply (proj1 (can_cook_recipe_order_and_case _ _ _ _)).
  - apply Permutation_swap.
  - apply Permutation_swap.
Defined.

(** X6: more tools never hurt, and a recipe that requires no tool can
    always be cooked: if a recipe can be cooked with a tool set, it can be
    cooked with every tool set that has at least the same tools; with no
    tool available, exactly the recipes without required tools can. *)
Theorem can_cook_recipe_monotone (ts ts' : ToolSet) (r : Recipe) :
  (available_tools ts ⊆ available_tools ts' ->
   can_cook_recipe ts (Some r) = true ->
   can_cook_recipe ts' (Some r) = true)
  /\ (required_tools r = [] -> can_cook_recipe ts (Some r) = true)
  /\ (can_cook_recipe (mkToolSet []) (Some r) = true <-> required_tools r = []).
Proof.
  split; [|split].
  - intros Hsub H. apply can_cook_recipe_iff. intros t Ht.
    destruct (proj1 (can_cook_recipe_iff ts r) H t Ht) as (a & Ha & Hl).
    exists a. split; [apply Hsub, Ha | exact Hl].
  - intros Hr. apply can_cook_recipe_iff. rewrite Hr. intros t Ht.
    inversion Ht.
  - rewrite can_cook_recipe_iff. cbn [available_tools]. split.
    + intros H. destruct (required_tools r) as [|t l]; [reflexivity|].
      destruct (H t) as (a & Ha & _); [left|]. inversion Ha.
    + intros -> t Ht. inversion Ht.
Qed.

Lemma can_cook_recipe_monotone_witness :
  can_cook_recipe ToolSet_default
    (Some (mkRecipe "Salad" ["lettuce"] ["Chop"] ["knife"] "5 minutes" "easy" 1))
  = true.
Proof.
  apply (proj1 (can_cook_recipe_monotone (mkToolSet ["Knife"]) ToolSet_default _)).
  - intros a Ha. cbn [available_tools] in Ha. inversion Ha as [|? ? ? Hn]; subst.
    + cbn [available_tools ToolSet_default]. do 5 right. left.
    + inversion Hn.
  - vm_compute. reflexivity.
Defined.

(** ** The tools built on the language model *)

Lemma strip_lower_pad (a c b : string) :
  all_space a = true -> all_space b = true ->
  PyStr.strip (PyStr.lower (a ++ c ++ b)) = PyStr.strip (PyStr.lower c).
Proof.
  intros Ha Hb. rewrite !lower_app, (lower_all_space a Ha), (lower_all_space b Hb).
  now apply strip_pad.
Qed.

(** X7: the two yes/no tools read the reply of the language model without
    regard to letter case or to white space around it: a reply that is the
    word "true" in any case, padded with any white space, counts as true,
    every other reply counts as false and is no error; an exception of the
    model is raised unchanged. *)
Theorem boolean_reply
    (llm : prompt -> result string) (q a c b : string) :
  all_space a = true -> all_space b = true ->
  (llm (QUERY_CLASSIFIER_PROMPT q) = Ok (a ++ c ++ b) ->
   tools_classify_query llm q
   = Ok (String.eqb (PyStr.strip (PyStr.lower c)) "true")
   /\ (PyStr.lower c = "true" -> tools_classify_query llm q = Ok true))
  /\ (llm (RESEARCH_NEEDED_PROMPT q) = Ok (a ++ c ++ b) ->
      tools_needs_research llm q
      = Ok (String.eqb (PyStr.strip (PyStr.lower c)) "true")
      /\ (PyStr.lower c = "true" -> tools_needs_research llm q = Ok true))
  /\ (forall e, llm (QUERY_CLASSIFIER_PROMPT q) = Raise e ->
                tools_classify_query llm q = Raise e)
  /\ (forall e, llm (RESEARCH_NEEDED_PROMPT q) = Raise e ->
                tools_needs_research llm q = Raise e).
Proof.
  intros Ha Hb. repeat apply conj.
  - intros H. unfold tools_classify_query. rewrite H. cbn [rbind].
    rewrite (strip_lower_pad a c b Ha Hb). split; [reflexivity|].
    now intros ->.
  - intros H. unfold tools_needs_research. rewrite H. cbn [rbind].
    rewrite (strip_lower_pad a c b Ha Hb). split; [reflexivity|].
    now intros ->.
  - intros e H. unfold tools_classify_query. now rewrite H.
  - intros e H. unfold tools_needs_research. now rewrite H.
Qed.

Lemma boolean_reply_witness :
  tools_classify_query (fun _ => Ok (" " ++ "TRUE" ++ newline)) "How long do I boil an egg?"
  = Ok true.
Proof.
  refine (proj2 (proj1 (boolean_reply _ "How long do I boil an egg?"
                          " " "TRUE" newline eq_refl eq_refl) eq_refl) eq_refl).
Defined.

Lemma lstrip_nonspace (c : ascii) (s : string) :
  PyStr.isspace c = false -> PyStr.lstrip (String c s) = String c s.
Proof. intros H. cbn [PyStr.lstrip]. now rewrite H. Qed.

Lemma startswith_app (p s : string) : PyStr.startswith (p ++ s) p = true.
Proof.
  induction p as [|c p IH]; [now destruct s|].
  rewrite append_cons. cbn [PyStr.startswith]. now rewrite Ascii.eqb_refl, IH.
Qed.

Lemma drop_app (p s : string) : PyStr.drop (String.length p) (p ++ s) = s.
Proof.
  induction p as [|c p IH]; [reflexivity|].
  rewrite append_cons. exact IH.
Qed.

Lemma length_append (a b : string) :
  String.length (a ++ b) = String.length a + String.length b.
Proof.
  induction a as [|c a IH]; [reflexivity|].
  rewrite append_cons. cbn [String.length]. now rewrite IH.
Qed.

Lemma substring_prefix (j t : string) :
  String.substring 0 (String.length j) (j ++ t) = j.
Proof.
  induction j as [|c j IH].
  - rewrite append_nil. now destruct t.
  - rewrite append_cons. cbn [String.length String.substring]. now rewrite IH.
Qed.

Lemma drop_end_app (j t : string) :
  PyStr.drop_end (String.length t) (j ++ t) = j.
Proof.
  unfold PyStr.drop_end. rewrite length_append.
  replace (String.length j + String.length t - String.length t)
    with (String.length j) by lia.
  apply substring_prefix.
Qed.

Lemma strip_keep (c : ascii) (x y : string) :
  PyStr.isspace c = false -> PyStr.rstrip y <> EmptyString -> PyStr.rstrip y = y ->
  PyStr.strip (String c x ++ y) = String c x ++ y.
Proof.
  intros Hc Hy Hf. unfold PyStr.strip.
  rewrite append_cons, (lstrip_nonspace c _ Hc), <- append_cons.
  rewrite (rstrip_app _ _ Hy). now rewrite Hf.
Qed.

(** X8: clean_json takes a fenced answer out of its fence: for a reply that
    is, up to white space around it, the opening fence with the json tag,
    a text and the closing fence, it returns the stripped text. *)
Theorem clean_json_fenced (a j b : string) :
  all_space a = true -> all_space b = true ->
  clean_json (a ++ ("```json" ++ j ++ "```") ++ b) = PyStr.strip j.
Proof.
  intros Ha Hb. unfold clean_json. cbv zeta. rewrite (strip_pad a _ b Ha Hb).
  assert (PyStr.strip ("```json" ++ j ++ "```") = "```json" ++ j ++ "```") as ->.
  { change ("```json" ++ j ++ "```") with (String "`" ("``json" ++ j) ++ "```").
    apply strip_keep; [reflexivity | cbv; discriminate | reflexivity]. }
  rewrite startswith_app.
  change 7 with (String.length "```json"). rewrite drop_app.
  assert (PyStr.endswith (j ++ "```") "```" = true) as ->
    by (apply endswith_spec; now exists j).
  change 3 with (String.length "```"). now rewrite drop_end_app.
Qed.

Lemma clean_json_fenced_witness :
  clean_json (newline ++ ("```json" ++ (newline ++ "{}" ++ newline) ++ "```") ++ " ")
  = PyStr.strip (newline ++ "{}" ++ newline).
Proof.
  exact (clean_json_fenced newline (newline ++ "{}" ++ newline) " " eq_refl eq_refl).
Defined.

Section ParseRecipe.

Variable llm : prompt -> result string.
Variable json_loads : string -> result Recipe.

Lemma Recipe_init_raises (raw : Recipe) (e : exn) :
  Recipe_init raw = Raise e -> is_ValueError e = true.
Proof.
  unfold Recipe_init.
  destruct (RecipeValidators.validate_cooking_time _),
    (RecipeValidators.validate_difficulty _),
    (RecipeValidators.validate_servings _); (discriminate || now intros [= <-]).
Qed.

(** X9: every Recipe that parse_recipe returns went through the
    validators: its difficulty is easy, medium or hard, its servings are at
    least 1 and its stripped cooking_time ends in "minutes". *)
Theorem parse_recipe_valid (research : list string) (r : Recipe) :
  parse_recipe llm json_loads research = Ok (Some r) ->
  valid_recipe r /\ Recipe_init r = Ok r.
Proof.
  unfold parse_recipe.
  destruct (llm _) as [content|e]; cbn [rbind].
  - destruct (json_loads _) as [raw|e]; cbn [rbind].
    + destruct (Recipe_init raw) as [r'|e] eqn:E.
      * intros [= <-]. exact (Recipe_init_sound raw r' E).
      * destruct (is_ValueError e); discriminate.
    + destruct (is_ValueError e); discriminate.
  - destruct (is_ValueError e); discriminate.
Qed.


End ParseRecipe.

Lemma parse_recipe_valid_witness :
  valid_recipe
    (mkRecipe "Soup" ["water"] ["Boil"] ["Little Pot"] "20 minutes" "hard" 3).
Proof.
  refine (proj1 (parse_recipe_valid
                   (fun _ => Ok "{}")
                   (fun _ => Ok (mkRecipe "Soup" ["water"] ["Boil"] ["Little Pot"]
                                          "20" "Hard" 3))
                   ["snippet"] _ _)).
  vm_compute. reflexivity.
Defined.


(** X11: a result without the key "body" makes the search tool raise
    KeyError("body"), whatever the other results hold. *)
Theorem search_recipes_missing_body
    (ddgs_text : string -> nat -> result (list (gmap string string)))
    (q : string) (results : list (gmap string string)) :
  ddgs_text ("recipe " ++ q) 3 = Ok results ->
  Exists (fun r => r !! "body" = None) results ->
  search_recipes ddgs_text q = Raise (KeyError "body").
Proof.
  intros H Hex. unfold search_recipes. rewrite H. cbn [rbind]. clear H.
  induction results as [|r results IH]; [inversion Hex|].
  cbn [rmap_list]. unfold body_of at 1.
  destruct (r !! "body") as [b|] eqn:Hb; cbn [rbind]; [|reflexivity].
  rewrite IH; [reflexivity|]. inversion Hex; [congruence | assumption].
Qed.

Lemma search_recipes_missing_body_witness :
  search_recipes
    (fun _ _ => Ok [ {[ "body" := "Stir." ]}; {[ "title" := "Rice" ]} ])
    "rice"
  = Raise (KeyError "body").
Proof.
  refine (search_recipes_missing_body _ "rice" _ eq_refl _).
  right. left. vm_compute. reflexivity.
Defined.

(** ** The response step with the tools of create_tools *)

Lemma generate_response_cooking (tools : Tools) (s : AgentState) (cs : list call) :
  is_cooking_related s = true ->
  generate_response tools (mkWorld s cs) =
    let called := (cs ++ [CallRespond (query s) (recipe s) toolset])%list in
    match tool_generate_response tools (query s) (recipe s) toolset with
    | Ok response =>
        if PyStr.truthy response
        then (Ok tt,
              mkWorld (reasoning_chain_append "Generated final response"
                         (set_final_response response s)) called)
        else (Raise (ValueError "Response generation failed"), mkWorld s called)
    | Raise e => (Raise e, mkWorld s called)
    end.
Proof.
  intros Hc. unfold generate_response, bind, get, invoke, modify, raise.
  cbn [state calls]. rewrite Hc. cbn [negb state calls].
  destruct (tool_generate_response tools (query s) (recipe s) toolset) as [x|e];
    [|reflexivity].
  destruct (PyStr.truthy x); reflexivity.
Qed.

Lemma generate_cooking_response_stripped
    (llm : prompt -> result string) (q : string) (r : option Recipe)
    (ts : ToolSet) (t : string) :
  generate_cooking_response llm q r ts = Ok t -> PyStr.strip t = t.
Proof.
  unfold generate_cooking_response.
  destruct (match r with Some _ => _ | None => _ end) as [content|e];
    cbn [rbind]; [|discriminate].
  destruct (negb (PyStr.truthy content)); [discriminate|].
  intros [= <-]. apply strip_idem.
Qed.

(** X12: with the tools of create_tools, in a cooking-related state, a
    response that generate_response stores is never empty and has no white
    space at either end; when the step raises instead it leaves the state as
    it was.  In particular a reply of the language model that is white
    space only, which generate_cooking_response strips to the empty string
    without an error, makes the step raise "Response generation failed". *)
Theorem generate_response_stored
    (llm : prompt -> result string)
    (ddgs_text : string -> nat -> result (list (gmap string string)))
    (json_loads : string -> result Recipe) (w : World) :
  is_cooking_related (state w) = true ->
  match generate_response (create_tools llm ddgs_text json_loads) w with
  | (Ok _, w') =>
      exists t, final_response (state w') = Some t
                /\ t <> EmptyString /\ PyStr.strip t = t
  | (Raise _, w') => state w' = state w
  end
  /\ (forall content,
        content <> EmptyString -> all_space content = true ->
        (forall p, llm p = Ok content) ->
        fst (generate_response (create_tools llm ddgs_text json_loads) w)
        = Raise (ValueError "Response generation failed")).
Proof.
  intros Hc. destruct w as [s cs]. cbn [state] in Hc.
  rewrite (generate_response_cooking _ s cs Hc). cbv zeta.
  cbn [create_tools tool_generate_response]. split.
  - destruct (generate_cooking_response llm (query s) (recipe s) toolset)
      as [t|e] eqn:E; [|reflexivity].
    destruct (PyStr.truthy t) eqn:T; [|reflexivity].
    exists t. repeat split.
    + now apply truthy_spec.
    + exact (generate_cooking_response_stripped _ _ _ _ _ E).
  - intros content Hne Hsp Hllm.
    assert (generate_cooking_response llm (query s) (recipe s) toolset
            = Ok EmptyString) as ->.
    { unfold generate_cooking_response.
      assert (forall p, rbind (llm p) (fun c =>
                if negb (PyStr.truthy c)
                then Raise (ValueError "Failed to generate response content")
                else Ok (PyStr.strip c)) = Ok EmptyString) as Hp.
      { intros p. rewrite Hllm. cbn [rbind].
        apply truthy_spec in Hne. rewrite Hne. cbn [negb].
        now rewrite (proj2 (strip_empty_iff content) Hsp). }
      destruct (recipe s); [|destruct (PyStr.contains _ _)]; apply Hp. }
    reflexivity.
Qed.

Lemma generate_response_stored_witness :
  fst (generate_response
         (create_tools (fun _ => Ok " ") Samples.ddgs_down Samples.no_json)
         (mkWorld Samples.cooking_state []))
  = Raise (ValueError "Response generation failed").
Proof.
  refine (proj2 (generate_response_stored _ _ _
                   (mkWorld Samples.cooking_state []) eq_refl) " " _ eq_refl _).
  - discriminate.
  - reflexivity.
Defined.

(** ** What each step leaves alone *)

(** X13: every field but the reasoning chain has one writer: only
    classify_query changes is_cooking_related, only check_research_needed
    changes needs_research, only do_research changes research_results, only
    parse_results changes recipe and only generate_response changes
    final_response, whatever the tools answer or raise. *)
Theorem step_field_owner (tools : Tools) (n : step_name) (w : World) :
  let s' := state (snd (step tools n w)) in
  (n <> Classify -> is_cooking_related s' = is_cooking_related (state w))
  /\ (n <> CheckResearch -> needs_research s' = needs_research (state w))
  /\ (n <> Research -> research_results s' = research_results (state w))
  /\ (n <> Parse -> recipe s' = recipe (state w))
  /\ (n <> Respond -> final_response s' = final_response (state w)).
Proof.
  destruct w as [[q cooking needs research r chain final] cs].
  destruct n; unfold_steps; cbn.
  - destruct (tool_classify_query tools q) as [b|e]; cbn;
      repeat split; congruence.
  - destruct cooking; cbn;
      [destruct (tool_needs_research tools q) as [b|e]; cbn|];
      repeat split; congruence.
  - destruct needs; cbn;
      [destruct (tool_search_recipes tools q) as [[|x l]|e]; cbn|];
      repeat split; congruence.
  - destruct research as [|x l]; cbn;
      [|destruct (tool_parse_recipe tools (x :: l)) as [o|e]; cbn];
      repeat split; congruence.
  - destruct cooking; cbn;
      [destruct (tool_generate_response tools q r toolset) as [t|e]; cbn;
       [destruct (PyStr.truthy t); cbn|]|];
      repeat split; congruence.
Qed.

Lemma step_field_owner_witness :
  final_response
    (state (snd (step Samples.found Parse
                   (mkWorld (set_research_results ["a"] Samples.cooking_state) []))))
  = None.
Proof.
  refine (proj2 (proj2 (proj2 (proj2
    (step_field_owner Samples.found Parse
       (mkWorld (set_research_results ["a"] Samples.cooking_state) []))))) _).
  discriminate.
Defined.

(** ** Every run from a fresh state *)

Ltac tool_case :=
  match goal with
  | |- context [match tool_classify_query ?t ?q with _ => _ end] =>
      destruct (tool_classify_query t q) as [[]|?] eqn:?
  | |- context [match tool_needs_research ?t ?q with _ => _ end] =>
      destruct (tool_needs_research t q) as [[]|?] eqn:?
  | |- context [match tool_search_recipes ?t ?q with _ => _ end] =>
      destruct (tool_search_recipes t q) as [[|? ?]|?] eqn:?
  | |- context [match tool_parse_recipe ?t ?l with _ => _ end] =>
      destruct (tool_parse_recipe t l) as [[?|]|?] eqn:?
  | |- context [match tool_generate_response ?t ?q ?r ?ts with _ => _ end] =>
      destruct (tool_generate_response t q r ts) as [?|?] eqn:?
  | |- context [if PyStr.truthy ?x then _ else _] =>
      destruct (PyStr.truthy x) eqn:?
  | |- context [if negb (PyStr.truthy ?x) then _ else _] =>
      destruct (PyStr.truthy x) eqn:?
  end.

Ltac run_red :=
  cbv beta iota zeta delta
    [state calls query is_cooking_related needs_research research_results
     recipe reasoning_chain final_response AgentState_init
     set_is_cooking_related set_needs_research set_research_results
     set_recipe set_final_response reasoning_chain_append negb fst snd
     app].

Ltac run_cases :=
  unfold run, workflow; unfold_steps; run_red; repeat (tool_case; run_red).

(** X14: in a run from a fresh state the tools are called in the order of
    the graph, each at most once, the classifier first: the record of calls
    is the list classify, needs_research, search, parse, respond with some
    calls left out, every call carries the query of the run, the parser gets
    the research results kept in the state and the response tool the recipe
    kept in the state. *)
Theorem run_calls_in_order (tools : Tools) (q : string) :
  let w' := snd (run tools q) in
  calls w' `sublist_of`
    [CallClassify q; CallNeedsResearch q; CallSearch q;
     CallParse (research_results (state w'));
     CallRespond q (recipe (state w')) toolset]
  /\ exists l, calls w' = CallClassify q :: l.
Proof.
  run_cases;
    (split;
     [repeat first [apply sublist_nil | apply sublist_skip | apply sublist_cons]
     | eexists; reflexivity]).
Qed.

Lemma run_calls_in_order_witness :
  exists l, calls (snd (run Samples.found "risotto")) = CallClassify "risotto" :: l.
Proof. exact (proj2 (run_calls_in_order Samples.found "risotto")). Defined.

(** X15: in the state left by a run from a fresh state, whether it returned
    or raised, each field set by a later step implies the gate of the
    earlier one: research is needed only for a cooking query, research
    results are present only when research was needed, a recipe is present
    only when there are research results, and final_response is set only
    when the run returned. *)
Theorem run_gates (tools : Tools) (q : string) :
  let s' := state (snd (run tools q)) in
  (needs_research s' = true -> is_cooking_related s' = true)
  /\ (research_results s' <> [] -> needs_research s' = true)
  /\ (recipe s' <> None -> research_results s' <> [])
  /\ (final_response s' <> None -> fst (run tools q) = Ok tt).
Proof.
  run_cases; repeat split; intros; (congruence || discriminate).
Qed.

Lemma run_gates_witness :
  research_results (state (snd (run Samples.found "risotto"))) <> [].
Proof.
  refine (proj1 (proj2 (proj2 (run_gates Samples.found "risotto"))) _).
  vm_compute. discriminate.
Defined.

(** X16: the reasoning chain of a run from a fresh state has at most five
    entries; it is empty exactly when the classifier raised; and when it is
    not empty the response model's validate_reasoning_chain returns it
    unchanged (no entry is dropped or altered, the default entry is not
    used). *)
Theorem run_chain_validated (tools : Tools) (q : string) :
  let chain := reasoning_chain (state (snd (run tools q))) in
  List.length chain <= 5
  /\ (chain = [] <-> exists e, tool_classify_query tools q = Raise e)
  /\ (chain <> [] -> validate_reasoning_chain chain = chain).
Proof.
  run_cases;
    (split; [cbn [List.length]; lia|];
     split;
     [split;
      [first [discriminate | intros _; eexists; reflexivity]
      | intros [? ?]; congruence]
     | first [intros H; now contradiction H | intros _; vm_compute; reflexivity]]).
Qed.

Lemma run_chain_validated_witness :
  validate_reasoning_chain
    (reasoning_chain (state (snd (run Samples.nothing_found "rice"))))
  = reasoning_chain (state (snd (run Samples.nothing_found "rice"))).
Proof.
  refine (proj2 (proj2 (run_chain_validated Samples.nothing_found "rice")) _).
  vm_compute. discriminate.
Defined.

Lemma truthy_false (s : string) : PyStr.truthy s = false -> s = EmptyString.
Proof.
  unfold PyStr.truthy. rewrite negb_false_iff. apply String.eqb_eq.
Qed.

(** X17: when a run from a fresh state returns, the classifier has answered
    and is_cooking_related holds its answer; for a cooking query the
    response tool returned a non-empty text, final_response holds that text
    and the last entry of the chain is "Generated final response"; for any
    other query final_response holds the refusal and the classifier is the
    only tool that was called. *)
Theorem run_returns (tools : Tools) (q : string) (w' : World) :
  run tools q = (Ok tt, w') ->
  exists b,
    tool_classify_query tools q = Ok b
    /\ is_cooking_related (state w') = b
    /\ if b
       then exists t,
              tool_generate_response tools q (recipe (state w')) toolset = Ok t
              /\ t <> EmptyString
              /\ final_response (state w') = Some t
              /\ last (reasoning_chain (state w'))
                 = Some "Generated final response"
       else final_response (state w') = Some refusal
            /\ calls w' = [CallClassify q].
Proof.
  run_cases; intros [= <-]; run_red;
    (eexists; split; [reflexivity|]; split; [reflexivity|]);
    first
      [ split; reflexivity
      | eexists; split; [eassumption|];
        split; [now apply truthy_spec|]; split; reflexivity ].
Qed.

Lemma run_returns_witness :
  exists b,
    tool_classify_query Samples.off_topic "weather" = Ok b
    /\ is_cooking_related (state (snd (run Samples.off_topic "weather"))) = b.
Proof.
  destruct (run_returns Samples.off_topic "weather"
              (snd (run Samples.off_topic "weather")))
    as (b & Hb & Hc & _).
  - vm_compute. reflexivity.
  - exists b. split; [exact Hb | exact Hc].
Defined.

(** X18: a run from a fresh state raises only what a tool raised, or the
    error of the empty response, and stops there: when the run raises, the
    last call recorded is the call of the tool that raised that very
    exception, or it is the call of the response tool, which returned the
    empty string, and the exception is ValueError("Response generation
    failed"). *)
Theorem run_raises (tools : Tools) (q : string) (e : exn) :
  fst (run tools q) = Raise e ->
  exists c,
    last (calls (snd (run tools q))) = Some c
    /\ (raises tools c e
        \/ (e = ValueError "Response generation failed"
            /\ exists r, c = CallRespond q r toolset
                         /\ tool_generate_response tools q r toolset
                            = Ok EmptyString)).
Proof.
  run_cases; intros [= <-];
    (eexists; split; [reflexivity|]);
    first
      [ left; cbn [raises]; assumption
      | right; split; [reflexivity|]; eexists; split; [reflexivity|];
        match goal with
        | H : PyStr.truthy ?s = false |- _ =>
            apply truthy_false in H; subst s; assumption
        end ].
Qed.

Lemma run_raises_witness :
  exists c,
    last (calls (snd (run Samples.speechless "rice"))) = Some c
    /\ (raises Samples.speechless c (ValueError "Response generation failed")
        \/ (ValueError "Response generation failed"
            = ValueError "Response generation failed"
            /\ exists r, c = CallRespond "rice" r toolset
                         /\ tool_generate_response Samples.speechless "rice" r toolset
                            = Ok EmptyString)).
Proof.
  refine (run_raises Samples.speechless "rice" _ _).
  vm_compute. reflexivity.
Defined.

(** ** A recipe that cannot be parsed *)

(** X19: a reply of the language model that cannot be decoded, or that
    decodes to fields the validators reject (a difficulty other than easy,
    medium or hard, servings below 1), does not stop the run: with the tools
    of create_tools parse_results returns, leaves the recipe absent and
    appends "Recipe parsing failed". *)
Theorem parse_failure_recorded
    (llm : prompt -> result string)
    (ddgs_text : string -> nat -> result (list (gmap string string)))
    (json_loads : string -> result Recipe)
    (w : World) (x : string) (l : list string) (content : string) :
  research_results (state w) = x :: l ->
  llm (RECIPE_PARSER_PROMPT (PyStr.join newline (x :: l))) = Ok content ->
  (json_loads (clean_json content) = Raise JSONDecodeError
   \/ exists raw,
        json_loads (clean_json content) = Ok raw
        /\ (PyStr.lower (difficulty raw) ∉ RecipeValidators.allowed
            \/ (servings raw < 1)%Z)) ->
  parse_results (create_tools llm ddgs_text json_loads) w
  = (Ok tt,
     mkWorld (reasoning_chain_append "Recipe parsing failed"
                (set_recipe None (state w)))
             (calls w ++ [CallParse (x :: l)])).
Proof.
  intros Hr Hllm Hbad.
  assert (parse_recipe llm json_loads (x :: l) = Ok None) as Hp.
  { unfold parse_recipe. rewrite Hllm. cbn [rbind].
    destruct Hbad as [-> | (raw & -> & Hraw)]; cbn [rbind]; [reflexivity|].
    destruct (Recipe_init raw) as [r|e] eqn:E.
    - apply Recipe_init_ok in E as (Hd & Hs & _).
      destruct Hraw; [contradiction | lia].
    - now rewrite (Recipe_init_raises raw e E). }
  destruct w as [s cs]. cbn [state calls] in *.
  unfold parse_results, bind, get, invoke, modify. cbn [state calls].
  rewrite Hr. cbn [create_tools tool_parse_recipe]. now rewrite Hp.
Qed.

Lemma parse_failure_recorded_witness :
  parse_results
    (create_tools (fun _ => Ok "not json") Samples.ddgs_down Samples.no_json)
    (mkWorld (set_research_results ["a"] Samples.cooking_state) [])
  = (Ok tt,
     mkWorld (reasoning_chain_append "Recipe parsing failed"
                (set_recipe None (set_research_results ["a"] Samples.cooking_state)))
             [CallParse ["a"]]).
Proof.
  refine (parse_failure_recorded _ Samples.ddgs_down Samples.no_json
            (mkWorld (set_research_results ["a"] Samples.cooking_state) [])
            "a" [] "not json" eq_refl eq_refl _).
  left. reflexivity.
Defined.

(** ** The dish of a "how to cook" query *)

Lemma contains_cons (c : ascii) (s sub : string) :
  PyStr.contains (String c s) sub = false ->
  PyStr.startswith (String c s) sub = false /\ PyStr.contains s sub = false.
Proof. cbn [PyStr.contains]. now intros [? ?]%orb_false_iff. Qed.

Lemma replace_absent (old new s : string) :
  PyStr.contains s old = false -> PyStr.replace_from 0 old new s = s.
Proof.
  induction s as [|c s IH]; [reflexivity|].
  intros [Hs Hc]%contains_cons. cbn [PyStr.replace_from].
  rewrite Hs. now rewrite (IH Hc).
Qed.

Lemma replace_skip (old new p s : string) :
  PyStr.replace_from (String.length p) old new (p ++ s)
  = PyStr.replace_from 0 old new s.
Proof.
  induction p as [|c p IH]; [reflexivity|].
  rewrite append_cons. cbn [String.length PyStr.replace_from]. exact IH.
Qed.

Lemma replace_prefix (c : ascii) (old s : string) :
  PyStr.contains s (String c old) = false ->
  PyStr.replace (String c old ++ s) (String c old) EmptyString = s.
Proof.
  intros H. unfold PyStr.replace. rewrite append_cons.
  cbn [PyStr.replace_from]. rewrite <- append_cons, startswith_app.
  rewrite append_nil.
  replace (String.length (String c old) - 1) with (String.length old)
    by (cbn [String.length]; lia).
  rewrite replace_skip.
  now apply replace_absent.
Qed.

Lemma startswith_contains (s p : string) :
  PyStr.startswith s p = true -> PyStr.contains s p = true.
Proof. intros H. destruct s; cbn [PyStr.contains]; now rewrite H. Qed.

Lemma startswith_app_l (p1 p2 s : string) :
  PyStr.startswith ((p1 ++ p2) ++ s) p1 = true.
Proof. rewrite append_assoc. apply startswith_app. Qed.

(** X20: without a recipe, a query that reads "how to cook " followed by a
    dish, in any letter case, is answered from the basic-instructions
    prompt, and the dish named in that prompt is the lower-cased rest of the
    query (provided the phrase does not occur again in it); the reply is
    returned stripped, and an empty reply is an error. *)
Theorem how_to_cook_dish
    (llm : prompt -> result string) (q dish : string) (ts : ToolSet) :
  PyStr.lower q = "how to cook " ++ dish ->
  PyStr.contains dish "how to cook " = false ->
  generate_cooking_response llm q None ts
  = rbind (llm (HOW_TO_COOK_PROMPT dish (available_tools ts)))
      (fun content =>
         if negb (PyStr.truthy content)
         then Raise (ValueError "Failed to generate response content")
         else Ok (PyStr.strip content)).
Proof.
  intros Hq Hd. unfold generate_cooking_response. rewrite Hq.
  assert (PyStr.contains ("how to cook " ++ dish) "how to cook" = true) as ->.
  { apply startswith_contains.
    change "how to cook " with ("how to cook" ++ " ").
    apply startswith_app_l. }
  now rewrite (replace_prefix "h"%char "ow to cook " dish Hd).
Qed.

Lemma how_to_cook_dish_witness :
  generate_cooking_response
    (fun p => match p with
              | HOW_TO_COOK_PROMPT dish _ => Ok (" Boil the " ++ dish ++ ". ")
              | _ => Ok "other"
              end)
    "How To Cook Brown Rice" None ToolSet_default
  = Ok "Boil the brown rice.".
Proof.
  exact (how_to_cook_dish _ "How To Cook Brown Rice" "brown rice" ToolSet_default
           eq_refl eq_refl).
Defined.
